(** * Sapling: the sidebar host (SidebarProvider.ts) over the parser interface

    The repository's [SidebarProvider] class is the glue between the VS Code
    extension host and the [SaplingParser] engine.  This development embeds
    the class as explicit state passing over a [World] record: the fields of
    the provider ([_view], [parser]), the workspace key-value store
    ([context.workspaceState]) and a log of the effects the methods perform
    (messages posted to a webview, store updates, calls into the parser).

    JavaScript values that cross the boundary (webview messages, stored
    snapshots, settings objects) are kept dynamically typed, as the code has
    them: truthiness tests, property reads and [switch] on strings are
    written out. *)

From Stdlib Require Import ZArith Ascii String.
From stdpp Require Import gmap strings list pretty.

Local Open Scope string_scope.
Local Open Scope list_scope.

(** ** JavaScript values *)

(** Numbers are integers here: the code under study never does arithmetic
    on them, it only tests them for truthiness and passes them through. *)
#[warnings="-register-all"]
Inductive JsVal : Type :=
| JUndefined
| JNull
| JBool (b : bool)
| JNum (n : Z)
| JStr (s : string)
| JArr (items : list JsVal)
| JObj (fields : list (string * JsVal)).

(** [!!v] in JavaScript: undefined, null, false, 0 and the empty string are
    falsy; every array and every object is truthy. *)
Definition js_truthy (v : JsVal) : bool :=
  match v with
  | JUndefined | JNull => false
  | JBool b => b
  | JNum n => negb (n =? 0)%Z
  | JStr s => negb (String.eqb s "")
  | JArr _ | JObj _ => true
  end.

(** Own-property lookup in the field list of an object literal. *)
Fixpoint js_field (k : string) (fs : list (string * JsVal)) : JsVal :=
  match fs with
  | [] => JUndefined
  | (k', v) :: r => if String.eqb k k' then v else js_field k r
  end.

(** [v.k]: reading a property of undefined or null throws a TypeError
    ([None]); on any other value it yields the own property or undefined
    (inherited properties such as [length] are never read by the host with
    a name, so they are left out). *)
Definition js_prop (k : string) (v : JsVal) : option JsVal :=
  match v with
  | JUndefined | JNull => None
  | JObj fs => Some (js_field k fs)
  | _ => Some JUndefined
  end.

(** [v[i]] for the receivers a truthy message value can be: array element,
    one-character string, own property of an object under the decimal key,
    undefined on a number or boolean.  The host guards the receiver with a
    truthiness test, so the nullish receivers (which would throw) are
    mapped to undefined. *)
Definition js_index (v : JsVal) (i : nat) : JsVal :=
  match v with
  | JArr l => nth i l JUndefined
  | JStr s => match String.get i s with
              | Some c => JStr (String c EmptyString)
              | None => JUndefined
              end
  | JObj fs => js_field (pretty i) fs
  | _ => JUndefined
  end.

(** [v === "s"], the comparison a [switch] over string cases performs. *)
Definition js_is_str (v : JsVal) (s : string) : bool :=
  match v with
  | JStr s' => String.eqb s' s
  | _ => false
  end.

(** Object update [o[k] = v] on a field list: replaces the first binding of
    [k] or appends a new one. *)
Fixpoint js_set_field (k : string) (v : JsVal) (fs : list (string * JsVal))
  : list (string * JsVal) :=
  match fs with
  | [] => [(k, v)]
  | (k', v') :: r =>
      if String.eqb k k' then (k, v) :: r else (k', v') :: js_set_field k v r
  end.

(** ** The file system as the parser sees it

    The parser reads source files through its analyzer and resolver
    ([SaplingParser.ts], not among the sources).  What the host's
    world has to carry is their outcome per file: whether the file parses,
    its display name, and for each import in source order whether it
    resolves to a project file, stops at a package boundary, or fails. *)

(** Modelled from the spec: the per-node error kinds of section 7. *)
Inductive ErrorKind : Type :=
| FileNotFound
| UnresolvedAlias
| UnparseableSource.

(** Modelled from the spec: the outcome of [resolve] for one import
    specifier (4.1): an absolute path, a package boundary, or a failure. *)
Inductive Import : Type :=
| Resolved (path : string)
| PackageBoundary
| Unresolved (specifier : string) (e : ErrorKind).

(** Modelled from the spec: the result of [analyze] (4.2), with the
    imports already resolved. *)
Record Analysis : Type := mkAnalysis {
  displayName : option string;
  imports : list Import
}.

(** Modelled from the spec: a file on disk either fails to parse or has
    an analysis (4.2). *)
Inductive FileEntry : Type :=
| Unparseable
| Parsed (a : Analysis).

(** Modelled from the spec: the files the builder can reach, and the
    config files the settings may point to that parse (section 3). *)
Record Disk : Type := mkDisk {
  files : gmap string FileEntry;
  parseableConfigs : gset string
}.

(** ** The parser interface

    [SaplingParser] is imported by the host from [./SaplingParser]; the host
    uses exactly the members below.  [new_parser] is the constructor, whose
    second argument is optional (see [clearWorkSpaceState]).  The host
    discards the result of [parse] and wraps none of these calls in
    [try]/[catch]; they are taken to return normally. *)
Class SaplingParser (P : Type) : Type := {
  new_parser : JsVal -> option JsVal -> P;
  entryFile : P -> JsVal;
  settings : P -> JsVal;
  setTree : JsVal -> P -> P;
  getTree : P -> JsVal;
  setEntryFile : string -> P -> P;
  parse : Disk -> P -> P;
  updateTree : Disk -> string -> P -> P;
  toggleNode : JsVal -> JsVal -> P -> P * JsVal;
  updateSettings : string -> JsVal -> P -> P;
  validSettings : Disk -> P -> bool
}.

(** Calls into the parser, as they appear in the effect log. *)
Inductive ParserCall : Type :=
| CallNew (filePath : JsVal) (settingsArg : option JsVal)
| CallSetTree (tree : JsVal)
| CallGetTree
| CallSetEntryFile (path : string)
| CallParse
| CallUpdateTree (path : string)
| CallToggleNode (id expanded : JsVal)
| CallUpdateSettings (key : string) (value : JsVal)
| CallValidSettings (result : bool).

(** A webview panel is identified by a number. *)
Definition View : Type := nat.

(** What a method of the host does to its surroundings, in program order. *)
Inductive Effect : Type :=
| PostMessage (target : View) (type : string) (value : JsVal)
| StateUpdate (key : string) (value : JsVal)
| Call (c : ParserCall)
| ShowTextDocument (path : JsVal).

(** Answers of the editor to the queries a message handler makes while it
    runs: the result of [showOpenDialog] (undefined when the user cancels),
    the file of the active text editor, and the [view] entry of the
    [sapling] configuration. *)
Record Ambient : Type := mkAmbient {
  openDialog : option (list string);
  activeTextEditor : option string;
  viewPreference : JsVal
}.

Section Host.

Context {P : Type} {parser_ops : SaplingParser P}.

(** The provider object together with the extension context it holds.
    [listeners] records, in registration order, the webviews for which
    [resolveWebviewView] has installed its event handlers. *)
Record World : Type := mkWorld {
  _view : option View;
  parser : P;
  workspaceState : gmap string JsVal;
  listeners : list View;
  disk : Disk;
  log : list Effect
}.

Definition emit (e : Effect) (w : World) : World :=
  let '(mkWorld v p ws ls d l) := w in mkWorld v p ws ls d (l ++ [e]).

Definition set_view (v : View) (w : World) : World :=
  let '(mkWorld _ p ws ls d l) := w in mkWorld (Some v) p ws ls d l.

(** [Memento.get]: a missing key reads as undefined. *)
Definition memento_get (k : string) (m : gmap string JsVal) : JsVal :=
  default JUndefined (m !! k).

(** [Memento.update]: storing undefined removes the key. *)
Definition memento_update (k : string) (v : JsVal) (m : gmap string JsVal)
  : gmap string JsVal :=
  match v with
  | JUndefined => delete k m
  | _ => <[k := v]> m
  end.

(** [this.context.workspaceState.update(k, v)] *)
Definition state_update (k : string) (x : JsVal) (w : World) : World :=
  let '(mkWorld v p ws ls d l) := w in
  mkWorld v p (memento_update k x ws) ls d (l ++ [StateUpdate k x]).

(** [target.webview.postMessage({ type, value })] *)
Definition postMessage (target : View) (type : string) (value : JsVal)
  (w : World) : World :=
  emit (PostMessage target type value) w.

(** *** Parser calls, logged *)

Definition call_getTree (w : World) : JsVal * World :=
  (getTree (parser w), emit (Call CallGetTree) w).

Definition call_setEntryFile (path : string) (w : World) : World :=
  let '(mkWorld v p ws ls d l) := w in
  mkWorld v (setEntryFile path p) ws ls d
          (l ++ [Call (CallSetEntryFile path)]).

Definition call_parse (w : World) : World :=
  let '(mkWorld v p ws ls d l) := w in
  mkWorld v (parse d p) ws ls d (l ++ [Call CallParse]).

Definition call_updateTree (path : string) (w : World) : World :=
  let '(mkWorld v p ws ls d l) := w in
  mkWorld v (updateTree d path p) ws ls d (l ++ [Call (CallUpdateTree path)]).

Definition call_toggleNode (id expanded : JsVal) (w : World) : JsVal * World :=
  let '(mkWorld v p ws ls d l) := w in
  let '(p', tree) := toggleNode id expanded p in
  (tree, mkWorld v p' ws ls d (l ++ [Call (CallToggleNode id expanded)])).

Definition call_updateSettings (key : string) (value : JsVal) (w : World)
  : World :=
  let '(mkWorld v p ws ls d l) := w in
  mkWorld v (updateSettings key value p) ws ls d
          (l ++ [Call (CallUpdateSettings key value)]).

Definition call_validSettings (w : World) : bool * World :=
  let '(mkWorld v p ws ls d l) := w in
  (validSettings d p,
   mkWorld v p ws ls d (l ++ [Call (CallValidSettings (validSettings d p))])).

Definition call_new (filePath : JsVal) (settingsArg : option JsVal)
  (w : World) : World :=
  let '(mkWorld v _ ws ls d l) := w in
  mkWorld v (new_parser filePath settingsArg) ws ls d
          (l ++ [Call (CallNew filePath settingsArg)]).

(** *** constructor (lines 15-46) *)

(** [workspace[0].uri.fsPath] under the guard [if (workspace)]: an array is
    truthy even when empty, and reading [.uri] of its missing first element
    throws. *)
Definition workspaceRoot (workspaceFolders : option (list string))
  : option string :=
  match workspaceFolders with
  | None => Some ""
  | Some [] => None
  | Some (folder :: _) => Some folder
  end.

Definition defaultSettings (root : string) : JsVal :=
  JObj [("useAlias", JBool false); ("appRoot", JStr root);
        ("webpackConfig", JStr ""); ("tsConfig", JStr "")].

(** [new SidebarProvider(context)]; [None] when the constructor throws. *)
Definition SidebarProvider_new (store : gmap string JsVal)
  (workspaceFolders : option (list string)) (d : Disk) : option World :=
  let treeState := memento_get "sapling" store in
  let settingsState := memento_get "saplingSettings" store in
  root ← workspaceRoot workspaceFolders;
  let settings :=
    if js_truthy settingsState then settingsState else defaultSettings root in
  if js_truthy treeState then
    filePath ← js_prop "filePath" treeState;
    let p := new_parser filePath (Some settings) in
    Some (mkWorld None (setTree treeState p) store [] d
            [Call (CallNew filePath (Some settings));
             Call (CallSetTree treeState)])
  else
    Some (mkWorld None (new_parser (JStr "") (Some settings)) store [] d
            [Call (CallNew (JStr "") (Some settings))]).

(** *** updateView (lines 263-284) *)
Definition updateView (w : World) : World :=
  match _view w with
  | None => w
  | Some v =>
      let '(tree, w1) := call_getTree w in
      let w2 := state_update "sapling" tree w1 in
      let w3 := postMessage v "parsed-data" tree w2 in
      postMessage v "settings-data" (settings (parser w3)) w3
  end.

(** *** selectFile (lines 287-304)

    [None] is the TypeError of [uri[0].fsPath] on an empty array; otherwise
    the promise resolves to null or to a path. *)
Definition selectFile (selectMany selectFolders : bool)
  (dialog : option (list string)) : option (option string) :=
  match dialog with
  | None => Some None
  | Some [] => None
  | Some (uri :: _) => Some (Some uri)
  end.

(** *** resolveWebviewView (lines 49-223)

    The method also sets the webview's options and HTML; the provider never
    reads them back, so they are not part of the world.  A handler that
    awaits a picker is taken to run to its end before the next event. *)

Definition resolveWebviewView (webviewView : View) (w : World) : World :=
  let '(mkWorld _ p ws ls d l) := w in
  mkWorld (Some webviewView) p ws (ls ++ [webviewView]) d l.

(** Listener of [onDidChangeConfiguration] (lines 59-67). *)
Definition onDidChangeConfiguration (webviewView : View) (a : Ambient)
  (w : World) : World :=
  postMessage webviewView "preferences-data" (viewPreference a) w.

(** Listener of [onDidChangeActiveTextEditor] (lines 70-76); [e] is the
    file name of the new editor's document, or undefined. *)
Definition onDidChangeActiveTextEditor (webviewView : View)
  (e : option string) (w : World) : World :=
  postMessage webviewView "current-tab"
    (match e with Some f => JStr f | None => JUndefined end) w.

(** Listener of [onDidSaveTextDocument] (lines 79-87). *)
Definition onDidSaveTextDocument (fileName : string) (w : World) : World :=
  if negb (js_truthy (entryFile (parser w))) then w
  else updateView (call_updateTree fileName w).

(** The tail of the ['settings'] case (lines 125-137), reached after the
    inner switch unless a picker was cancelled. *)
Definition settings_commit (w : World) : World :=
  let w1 := state_update "saplingSettings" (settings (parser w)) w in
  let '(valid, w2) := call_validSettings w1 in
  let w3 := if valid then call_parse w2 else w2 in
  updateView w3.

(** Case ['settings'] (lines 97-138). *)
Definition on_settings (value : JsVal) (a : Ambient) (w : World)
  : option World :=
  if negb (js_truthy value) then Some w
  else
    let key := js_index value 0 in
    if js_is_str key "useAlias" then
      Some (settings_commit
              (call_updateSettings "useAlias" (js_index value 1) w))
    else if js_is_str key "appRoot" then
      rootPath ← selectFile false true (openDialog a);
      match rootPath with
      | Some path =>
          if String.eqb path "" then Some w
          else Some (settings_commit
                       (call_updateSettings "appRoot" (JStr path) w))
      | None => Some w
      end
    else if js_is_str key "webpackConfig" || js_is_str key "tsConfig" then
      filePath ← selectFile false false (openDialog a);
      match filePath, key with
      | Some path, JStr field =>
          if String.eqb path "" then Some w
          else Some (settings_commit
                       (call_updateSettings field (JStr path) w))
      | _, _ => Some w
      end
    else Some (settings_commit w).

(** Case ['onFile'] (lines 141-154). *)
Definition on_file (a : Ambient) (w : World) : option World :=
  filePath ← selectFile false false (openDialog a);
  match filePath with
  | Some path =>
      if String.eqb path "" then Some w
      else Some (updateView (call_parse (call_setEntryFile path w)))
  | None => Some w
  end.

(** Case ['onNodeToggle'] (lines 190-200). *)
Definition on_node_toggle (value : JsVal) (w : World) : option World :=
  if negb (js_truthy (entryFile (parser w))) then Some w
  else
    id ← js_prop "id" value;
    expanded ← js_prop "expanded" value;
    let '(tree, w1) := call_toggleNode id expanded w in
    Some (state_update "sapling" tree w1).

(** Case ['onBoldCheck'] (lines 203-220). *)
Definition on_bold_check (a : Ambient) (w : World) : World :=
  match _view w with
  | None => w
  | Some v =>
      match activeTextEditor a with
      | Some fileName =>
          if String.eqb fileName "" then w
          else postMessage v "current-tab" (JStr fileName) w
      | None => w
      end
  end.

(** Listener of [onDidReceiveMessage] (lines 93-222) of the webview
    [webviewView]; [None] when the handler's promise rejects with a
    TypeError, which in every such place happens before the first effect. *)
Definition onDidReceiveMessage (webviewView : View) (data : JsVal)
  (a : Ambient) (w : World) : option World :=
  type ← js_prop "type" data;
  value ← js_prop "value" data;
  if js_is_str type "settings" then on_settings value a w
  else if js_is_str type "onFile" then on_file a w
  else if js_is_str type "onViewFile" then
    if negb (js_truthy value) then Some w
    else Some (emit (ShowTextDocument value) w)
  else if js_is_str type "onSaplingVisible" then Some (updateView w)
  else if js_is_str type "onPreferencesAcquire" then
    Some (postMessage webviewView "preferences-data" (viewPreference a) w)
  else if js_is_str type "onNodeToggle" then on_node_toggle value w
  else if js_is_str type "onBoldCheck" then Some (on_bold_check a w)
  else Some w.

(** *** statusButtonClicked (lines 226-246)

    [uri] is the [path] of the clicked resource, or undefined when the
    command comes from the status bar. *)
Definition statusButtonClicked (uri : option string) (a : Ambient)
  (w : World) : World :=
  let generate (fileName : string) :=
    if String.eqb fileName "" then w
    else updateView (call_parse (call_setEntryFile fileName w)) in
  match uri with
  | None =>
      match activeTextEditor a with
      | None => w
      | Some fileName => generate fileName
      end
  | Some path => generate path
  end.

(** *** clearWorkSpaceState (lines 250-255) *)
Definition clearWorkSpaceState (w : World) : World :=
  let w1 := state_update "sapling" JUndefined w in
  let w2 := state_update "saplingSettings" JUndefined w1 in
  let w3 := call_new (JStr "") None w2 in
  updateView w3.

(** *** revive (lines 258-260) *)
Definition revive (panel : View) (w : World) : World := set_view panel w.

(** *** Events

    The methods above run when the editor calls them.  [resolveWebviewView]
    installs its listeners anew at every call and never disposes of them,
    so an editor event runs one listener per entry of [listeners]; a
    message of a webview runs the listeners installed on that webview.  A
    listener that throws leaves the world as it found it. *)
Inductive Event : Type :=
| ResolveWebviewView (webviewView : View)
| Revive (panel : View)
| DidChangeConfiguration (a : Ambient)
| DidChangeActiveTextEditor (e : option string)
| DidSaveTextDocument (fileName : string)
| DidReceiveMessage (source : View) (data : JsVal) (a : Ambient)
| StatusButtonClicked (uri : option string) (a : Ambient)
| ClearWorkSpaceState.

Definition run_listeners (h : View -> World -> World) (vs : list View)
  (w : World) : World :=
  foldl (fun acc v => h v acc) w vs.

Definition step (e : Event) (w : World) : World :=
  match e with
  | ResolveWebviewView v => resolveWebviewView v w
  | Revive panel => revive panel w
  | DidChangeConfiguration a =>
      run_listeners (fun v => onDidChangeConfiguration v a) (listeners w) w
  | DidChangeActiveTextEditor e =>
      run_listeners (fun v => onDidChangeActiveTextEditor v e) (listeners w) w
  | DidSaveTextDocument f =>
      run_listeners (fun _ => onDidSaveTextDocument f) (listeners w) w
  | DidReceiveMessage source data a =>
      run_listeners
        (fun v acc => default acc (onDidReceiveMessage v data a acc))
        (filter (fun v => v = source) (listeners w)) w
  | StatusButtonClicked uri a => statusButtonClicked uri a w
  | ClearWorkSpaceState => clearWorkSpaceState w
  end.

Definition set_disk (d : Disk) (w : World) : World :=
  let '(mkWorld v p ws ls _ l) := w in mkWorld v p ws ls d l.

(** The worlds the extension can be in: constructed from a workspace
    store, then driven by events, while files change on disk. *)
Inductive Reachable : World -> Prop :=
| reach_new store folders d w :
    SidebarProvider_new store folders d = Some w -> Reachable w
| reach_step e w : Reachable w -> Reachable (step e w)
| reach_disk d w : Reachable w -> Reachable (set_disk d w).

(** The effects performed between two worlds of one run. *)
Definition since (w w' : World) : list Effect :=
  drop (length (log w)) (log w').

(** What [updateView] does when the webview [v] is attached. *)
Definition view_effects (v : View) (p : P) : list Effect :=
  [Call CallGetTree; StateUpdate "sapling" (getTree p);
   PostMessage v "parsed-data" (getTree p);
   PostMessage v "settings-data" (settings p)].

(** [setEntryFile(f); parse(); updateView()], the common tail of
    ['onFile'] and [statusButtonClicked]. *)
Definition select_entry (f : string) (w : World) : World :=
  updateView (call_parse (call_setEntryFile f w)).

(** The run from [w] to [w'] ends by posting the tree and the settings the
    parser holds in [w'] to the webview [v]. *)
Definition emits_view_data (v : View) (w w' : World) : Prop :=
  exists pre,
    since w w' =
    pre ++ [PostMessage v "parsed-data" (getTree (parser w'));
            PostMessage v "settings-data" (settings (parser w'))].

(** No handler changes the attached webview or the installed listeners. *)
Definition same_shell (w w' : World) : Prop :=
  _view w' = _view w /\ listeners w' = listeners w.

(** The settings the constructor hands to the parser. *)
Definition initial_settings (store : gmap string JsVal) (root : string)
  : JsVal :=
  if js_truthy (memento_get "saplingSettings" store)
  then memento_get "saplingSettings" store
  else defaultSettings root.

(** The same provider over another store. *)
Definition with_store (m : gmap string JsVal) (w : World) : World :=
  let '(mkWorld v p _ ls d l) := w in mkWorld v p m ls d l.

(** [h] behaves the same whatever the store holds, up to the store. *)
Definition store_blind (h : World -> World) : Prop :=
  forall w m, exists m', h (with_store m w) = with_store m' (h w).

Definition store_blind_opt (h : World -> option World) : Prop :=
  forall w m,
    match h w with
    | None => h (with_store m w) = None
    | Some w' => exists m', h (with_store m w) = Some (with_store m' w')
    end.

End Host.

(** Store operations stay folded under [simpl]; their lemmas are used
    instead. *)
Arguments memento_get : simpl never.
Arguments memento_update : simpl never.

(** ** The parser, modelled from the specification

    [SaplingParser.ts] is not among the sources.  The module below follows
    the specification's data model (section 3), Tree Builder (4.3) and Tree
    Store (4.4); every definition in it is marked as such. *)

Module SpecParser.

(** Modelled from the spec: the classification of a node.  Section 3 gives a
    node an optional [error]; the cycle rule adds the cycle leaf. *)
Inductive Mark : Type :=
| Plain
| ErrorLeaf (e : ErrorKind)
| CycleLeaf.

(** Modelled from the spec: the Node of section 3 (id, filePath, name,
    children, expanded, error). *)
#[warnings="-register-all"]
Inductive Node : Type :=
  mkNode {
    id : nat;
    filePath : string;
    name : string;
    children : list Node;
    expanded : bool;
    mark : Mark
  }.

(** Modelled from the spec: the Tree Store's state (4.4): the entry file,
    the settings, the stored tree if any, and the next unissued node id. *)
Record Parser : Type := mkParser {
  p_entryFile : JsVal;
  p_settings : JsVal;
  p_tree : option Node;
  p_nextId : nat
}.

(** *** Names *)

(** Modelled from the spec: whether a path still has a directory part,
    for the basename below. *)
Fixpoint has_slash (s : string) : bool :=
  match s with
  | EmptyString => false
  | String c r => if Ascii.eqb c "/"%char then true else has_slash r
  end.

(** Modelled from the spec: the file basename the builder falls back to
    when the analyzer finds no display name (4.2). *)
Fixpoint basename (s : string) : string :=
  match s with
  | EmptyString => EmptyString
  | String c r =>
      if has_slash r then basename r
      else if Ascii.eqb c "/"%char then r else s
  end.

(** Modelled from the spec: the display name of a node: the exported
    component's name, else the file basename (section 3, 4.2). *)
Definition node_name (f : string) (a : Analysis) : string :=
  default (basename f) (displayName a).

(** Modelled from the spec: a node without children, as the builder
    records for an error or a cycle (sections 3 and 7). *)
Definition leaf (i : nat) (f : string) (root : bool) (m : Mark) : Node :=
  mkNode i f (basename f) [] root m.

(** *** Tree Builder: build *)

(** Modelled from the spec: the children of a node, one per import in
    source order (4.3); a package boundary yields no child (4.1), a failed
    resolution an error leaf (section 7).  [rec] builds the subtree of a
    resolved file; ids are minted from the counter threaded through. *)
Fixpoint build_children (rec : string -> nat -> option (Node * nat))
  (imps : list Import) (next : nat) : option (list Node * nat) :=
  match imps with
  | [] => Some ([], next)
  | Resolved q :: rest =>
      '(c, next1) ← rec q next;
      '(cs, next2) ← build_children rec rest next1;
      Some (c :: cs, next2)
  | PackageBoundary :: rest => build_children rec rest next
  | Unresolved s e :: rest =>
      '(cs, next2) ← build_children rec rest (S next);
      Some (leaf next s false (ErrorLeaf e) :: cs, next2)
  end.

(** Modelled from the spec: the depth-first traversal of 4.3 with the cycle
    rule of section 3.  [onPath] is the set of file paths on the current
    recursion path; a file already on it becomes a cycle leaf.  The
    recursion is not structural, so it is bounded by [fuel]; [None] means
    the fuel ran out. *)
Fixpoint build_node (fuel : nat) (d : Disk) (onPath : gset string)
  (root : bool) (f : string) (next : nat) : option (Node * nat) :=
  if decide (f ∈ onPath) then Some (leaf next f root CycleLeaf, S next)
  else
    match files d !! f with
    | None => Some (leaf next f root (ErrorLeaf FileNotFound), S next)
    | Some Unparseable =>
        Some (leaf next f root (ErrorLeaf UnparseableSource), S next)
    | Some (Parsed a) =>
        match fuel with
        | 0 => None
        | S fuel' =>
            '(cs, next') ←
              build_children (build_node fuel' d ({[f]} ∪ onPath) false)
                             (imports a) (S next);
            Some (mkNode next f (node_name f a) cs root Plain, next')
        end
    end.

(** Modelled from the spec: the bound the cycle rule puts on the depth of
    the traversal (section 3), used as fuel.
    One more than the number of files: each level of recursion puts a new
    file of the disk on the path. *)
Definition enough_fuel (d : Disk) : nat := S (size (dom (files d))).

(** Modelled from the spec: [build(entryFile, settings)] of 4.3; the root
    is expanded, every other node collapsed (section 3). *)
Definition build (d : Disk) (entry : string) (next : nat)
  : option (Node * nat) :=
  build_node (enough_fuel d) d ∅ true entry next.

(** *** Tree Builder: rebuildSubtree *)

(** Modelled from the spec: matching the old children by file path (4.3):
    the first node of [pool] for file [f], and the pool without it. *)
Fixpoint take_child (f : string) (pool : list Node)
  : option (Node * list Node) :=
  match pool with
  | [] => None
  | c :: rest =>
      if String.eqb (filePath c) f then Some (c, rest)
      else '(x, rest') ← take_child f rest; Some (x, c :: rest')
  end.

(** Modelled from the spec: the new children of a re-analysed node (4.3):
    an import whose file had a node among the old children keeps that node
    (matched by file path, then by position among duplicates); any other
    import gets a fresh subtree. *)
Fixpoint reconcile (fresh : string -> nat -> Node * nat)
  (imps : list Import) (pool : list Node) (next : nat) : list Node * nat :=
  match imps with
  | [] => ([], next)
  | Resolved q :: rest =>
      match take_child q pool with
      | Some (c, pool') =>
          let '(cs, next1) := reconcile fresh rest pool' next in
          (c :: cs, next1)
      | None =>
          let '(c, next1) := fresh q next in
          let '(cs, next2) := reconcile fresh rest pool next1 in
          (c :: cs, next2)
      end
  | PackageBoundary :: rest => reconcile fresh rest pool next
  | Unresolved s e :: rest =>
      match take_child s pool with
      | Some (c, pool') =>
          let '(cs, next1) := reconcile fresh rest pool' next in
          (c :: cs, next1)
      | None =>
          let '(cs, next1) := reconcile fresh rest pool (S next) in
          (leaf next s false (ErrorLeaf e) :: cs, next1)
      end
  end.

(** Modelled from the spec: the builder run with [enough_fuel]; the
    default is never taken (lemma [build_node_enough_fuel] below). *)
Definition subtree (d : Disk) (onPath : gset string) (root : bool)
  (f : string) (next : nat) : Node * nat :=
  default (leaf next f root (ErrorLeaf FileNotFound), S next)
          (build_node (enough_fuel d) d onPath root f next).

(** Modelled from the spec: [rebuildSubtree(existingTree, changedFile)] of
    4.3.  Every node of the changed file is re-analysed in place, keeping
    its id and expanded flag; the other nodes keep everything. *)
Fixpoint rebuild (d : Disk) (changed : string) (onPath : gset string)
  (n : Node) (next : nat) : Node * nat :=
  match n with
  | mkNode i f nm cs ex m =>
      match m with
      | CycleLeaf => (n, next)
      | _ =>
          let below := {[f]} ∪ onPath in
          let '(cs', next1) :=
            (fix each (l : list Node) (k : nat) : list Node * nat :=
               match l with
               | [] => ([], k)
               | c :: r =>
                   let '(c', k1) := rebuild d changed below c k in
                   let '(r', k2) := each r k1 in
                   (c' :: r', k2)
               end) cs next in
          if String.eqb f changed then
            match files d !! f with
            | Some (Parsed a) =>
                let '(cs'', next2) :=
                  reconcile (subtree d below false) (imports a) cs' next1 in
                (mkNode i f (node_name f a) cs'' ex Plain, next2)
            | Some Unparseable =>
                (mkNode i f nm [] ex (ErrorLeaf UnparseableSource), next1)
            | None => (mkNode i f nm [] ex (ErrorLeaf FileNotFound), next1)
            end
          else (mkNode i f nm cs' ex m, next1)
      end
  end.

(** *** Tree Store: toggle *)

(** Modelled from the spec: [toggleNode] of 4.4 on the tree: the node with
    the given id gets the given flag, every other node is kept. *)
Fixpoint toggle (target : nat) (flag : bool) (n : Node) : Node :=
  match n with
  | mkNode i f nm cs ex m =>
      mkNode i f nm (map (toggle target flag) cs)
             (if Nat.eqb i target then flag else ex) m
  end.

(** *** Snapshots *)

(** Modelled from the spec: the optional [error] field of a node
    (section 3) in a snapshot. *)
Definition encode_error (m : Mark) : JsVal :=
  match m with
  | ErrorLeaf FileNotFound => JStr "FileNotFound"
  | ErrorLeaf UnresolvedAlias => JStr "UnresolvedAlias"
  | ErrorLeaf UnparseableSource => JStr "UnparseableSource"
  | _ => JNull
  end.

(** Modelled from the spec: the cycle-leaf marking of a node (section 3)
    in a snapshot. *)
Definition is_cycle (m : Mark) : bool :=
  match m with
  | CycleLeaf => true
  | _ => false
  end.

(** Modelled from the spec: a node as a plain structured record (section 6)
    with the fields of section 3. *)
Fixpoint encode_node (n : Node) : JsVal :=
  match n with
  | mkNode i f nm cs ex m =>
      JObj [("id", JNum (Z.of_nat i)); ("filePath", JStr f);
            ("name", JStr nm); ("children", JArr (map encode_node cs));
            ("expanded", JBool ex); ("error", encode_error m);
            ("cycle", JBool (is_cycle m))]
  end.

(** Modelled from the spec: reading the two markings back. *)
Definition decode_mark (err cyc : JsVal) : option Mark :=
  match cyc, err with
  | JBool true, JNull => Some CycleLeaf
  | JBool false, JNull => Some Plain
  | JBool false, JStr s =>
      if String.eqb s "FileNotFound" then Some (ErrorLeaf FileNotFound)
      else if String.eqb s "UnresolvedAlias" then Some (ErrorLeaf UnresolvedAlias)
      else if String.eqb s "UnparseableSource"
           then Some (ErrorLeaf UnparseableSource)
      else None
  | _, _ => None
  end.

(** Modelled from the spec: restoring a snapshot (section 3, Tree) needs
    the node read back from the stored record; [None] when the value does not
    have the shape [encode_node] produces. *)
Fixpoint decode_node (v : JsVal) : option Node :=
  match v with
  | JObj fs =>
      let kids :=
        (fix scan (l : list (string * JsVal)) : option (list Node) :=
           match l with
           | [] => None
           | (k, x) :: r =>
               if String.eqb k "children" then
                 match x with
                 | JArr items =>
                     (fix all (l' : list JsVal) : option (list Node) :=
                        match l' with
                        | [] => Some []
                        | c :: t =>
                            n ← decode_node c; ns ← all t; Some (n :: ns)
                        end) items
                 | _ => None
                 end
               else scan r
           end) fs in
      match js_field "id" fs, js_field "filePath" fs,
            js_field "name" fs, js_field "expanded" fs with
      | JNum z, JStr f, JStr nm, JBool ex =>
          if (0 <=? z)%Z then
            cs ← kids;
            m ← decode_mark (js_field "error" fs) (js_field "cycle" fs);
            Some (mkNode (Z.to_nat z) f nm cs ex m)
          else None
      | _, _, _, _ => None
      end
  | _ => None
  end.

(** Modelled from the spec: ids stay unique for the lifetime of a tree
    (section 3), so a restored tree moves the id counter past the largest
    id it holds. *)
Fixpoint max_id (n : Node) : nat :=
  match n with
  | mkNode i _ _ cs _ _ => Nat.max i (list_max (map max_id cs))
  end.

(** *** Tree Store *)

(** Modelled from the spec: the defaults the engine is created with when
    the caller passes no settings (section 3, Settings). *)
Definition default_settings : JsVal :=
  JObj [("useAlias", JBool false); ("appRoot", JStr "");
        ("webpackConfig", JStr ""); ("tsConfig", JStr "")].

(** Modelled from the spec: the engine is created without a tree and, when
    the caller passes no settings, with defaults (section 3, Settings). *)
Definition make (entry : JsVal) (settingsArg : option JsVal) : Parser :=
  mkParser entry (default default_settings settingsArg) None 0.

(** Modelled from the spec: the snapshot handed to the host.  The spec
    names its shape [{ entryFilePath, root }]; the host reads the entry
    file back from the property [filePath] (SidebarProvider.ts line 41),
    so that is the name the snapshot carries here. *)
Definition snapshot (p : Parser) : JsVal :=
  match p_tree p with
  | None => JUndefined
  | Some r => JObj [("filePath", p_entryFile p); ("root", encode_node r)]
  end.

(** Modelled from the spec: restoring a snapshot at startup (section 3,
    Tree) installs its tree without parsing. *)
Definition restore (v : JsVal) (p : Parser) : Parser :=
  match js_prop "root" v ≫= decode_node with
  | Some r => mkParser (p_entryFile p) (p_settings p) (Some r) (S (max_id r))
  | None => mkParser (p_entryFile p) (p_settings p) None (p_nextId p)
  end.

(** Modelled from the spec: [setEntryFile] records the file and does not
    parse (4.4). *)
Definition set_entry (path : string) (p : Parser) : Parser :=
  mkParser (JStr path) (p_settings p) (p_tree p) (p_nextId p).

(** Modelled from the spec: one field of the settings (section 3). *)
Definition setting (k : string) (p : Parser) : JsVal :=
  match p_settings p with
  | JObj fs => js_field k fs
  | _ => JUndefined
  end.

(** Modelled from the spec: [updateSettings(key, value)] changes one field
    and never re-parses (4.4). *)
Definition update_setting (k : string) (v : JsVal) (p : Parser) : Parser :=
  match p_settings p with
  | JObj fs =>
      mkParser (p_entryFile p) (JObj (js_set_field k v fs)) (p_tree p)
               (p_nextId p)
  | _ => p
  end.

(** Modelled from the spec: a config path that is non-empty and points to
    a parseable file (section 3). *)
Definition config_ok (d : Disk) (v : JsVal) : bool :=
  match v with
  | JStr s => negb (String.eqb s "") && bool_decide (s ∈ parseableConfigs d)
  | _ => false
  end.

(** Modelled from the spec: settings are valid only when [appRoot] is
    non-empty and, if [useAlias] is true, at least one of
    [webpackConfig]/[tsConfig] is non-empty and points to a parseable file
    (section 3). *)
Definition valid (d : Disk) (p : Parser) : bool :=
  js_truthy (setting "appRoot" p)
  && (if js_truthy (setting "useAlias" p)
      then config_ok d (setting "webpackConfig" p)
           || config_ok d (setting "tsConfig" p)
      else true).

(** Modelled from the spec: the whole-operation failures of [parse]
    (section 7). *)
Inductive ParseError : Type :=
| InvalidSettings
| NoEntryFile.

(** Modelled from the spec: [parse()] of 4.4: it needs valid settings and
    an entry file, builds, and replaces the stored tree; otherwise it fails
    and leaves the stored tree untouched (section 7).  The failure is a
    returned status. *)
Definition parse_result (d : Disk) (p : Parser)
  : Parser * option ParseError :=
  if negb (valid d p) then (p, Some InvalidSettings)
  else
    match p_entryFile p with
    | JStr f =>
        if String.eqb f "" then (p, Some NoEntryFile)
        else
          let '(r, next) := subtree d ∅ true f (p_nextId p) in
          (mkParser (p_entryFile p) (p_settings p) (Some r) next, None)
    | _ => (p, Some NoEntryFile)
    end.

(** Modelled from the spec: [updateTree(changedFilePath)] of 4.4: a no-op
    without a stored tree, otherwise [rebuildSubtree]. *)
Definition update_tree (d : Disk) (changed : string) (p : Parser) : Parser :=
  match p_tree p with
  | None => p
  | Some r =>
      let '(r', next) := rebuild d changed ∅ r (p_nextId p) in
      mkParser (p_entryFile p) (p_settings p) (Some r') next
  end.

(** Modelled from the spec: [toggleNode(id, expanded)] of 4.4: sets the
    flag on the node with that id and returns the updated tree; an id no
    node carries changes nothing. *)
Definition toggle_node (idv flagv : JsVal) (p : Parser) : Parser * JsVal :=
  let p' :=
    match p_tree p, idv, flagv with
    | Some r, JNum z, JBool flag =>
        if (0 <=? z)%Z then
          mkParser (p_entryFile p) (p_settings p)
                   (Some (toggle (Z.to_nat z) flag r)) (p_nextId p)
        else p
    | _, _, _ => p
    end in
  (p', snapshot p').

(** Modelled from the spec: the members of [SaplingParser] the host uses,
    filled in with the Tree Store operations above. *)
#[export] Instance spec_parser : SaplingParser Parser := {|
  new_parser := make;
  entryFile := p_entryFile;
  settings := p_settings;
  setTree := restore;
  getTree := snapshot;
  setEntryFile := set_entry;
  parse := fun d p => fst (parse_result d p);
  updateTree := update_tree;
  toggleNode := toggle_node;
  updateSettings := update_setting;
  validSettings := valid
|}.

(** *** What the properties of the builder and of toggling are stated with *)

(** The imports that get a node: all but the package boundaries. *)
Fixpoint shown (imps : list Import) : list Import :=
  match imps with
  | [] => []
  | PackageBoundary :: rest => shown rest
  | imp :: rest => imp :: shown rest
  end.

(** [built d anc r imp n]: [n] is the subtree for the import [imp] below
    the path [anc], with expanded flag [r].  A resolved file that is on
    the path gets a cycle leaf and is not expanded; a file that is not on
    the path gets an error leaf if it is missing or does not parse, and
    otherwise a node with one collapsed child per shown import, in order,
    each built below the path extended by the file. *)
#[warnings="-register-all"]
Inductive built (d : Disk) : gset string -> bool -> Import -> Node -> Prop :=
| built_unresolved anc r s e i nm :
    built d anc r (Unresolved s e) (mkNode i s nm [] r (ErrorLeaf e))
| built_cycle anc r f i nm :
    f ∈ anc -> built d anc r (Resolved f) (mkNode i f nm [] r CycleLeaf)
| built_missing anc r f i nm :
    f ∉ anc -> files d !! f = None ->
    built d anc r (Resolved f) (mkNode i f nm [] r (ErrorLeaf FileNotFound))
| built_unparseable anc r f i nm :
    f ∉ anc -> files d !! f = Some Unparseable ->
    built d anc r (Resolved f)
          (mkNode i f nm [] r (ErrorLeaf UnparseableSource))
| built_plain anc r f a i cs :
    f ∉ anc -> files d !! f = Some (Parsed a) ->
    Forall2 (built d ({[f]} ∪ anc) false) (shown (imports a)) cs ->
    built d anc r (Resolved f) (mkNode i f (node_name f a) cs r Plain).

(** The ids of a tree with their flags, in depth-first order. *)
Fixpoint flags (n : Node) : list (nat * bool) :=
  match n with
  | mkNode i _ _ cs ex _ => (i, ex) :: concat (map flags cs)
  end.

(** A tree with every flag cleared: what toggling never changes. *)
Fixpoint collapse (n : Node) : Node :=
  match n with
  | mkNode i f nm cs _ m => mkNode i f nm (map collapse cs) false m
  end.

Definition set_flag (target : nat) (flag : bool) (e : nat * bool)
  : nat * bool :=
  (fst e, if Nat.eqb (fst e) target then flag else snd e).

End SpecParser.

(** ** Scenarios

    Concrete worlds over the modelled parser, used to run the host. *)

Module Scenarios.

Import SpecParser.

(** Two files importing each other. *)
Definition disk_cycle : Disk :=
  mkDisk (<["/A.tsx" := Parsed (mkAnalysis (Some "A") [Resolved "/B.tsx"])]>
            (<["/B.tsx" := Parsed (mkAnalysis (Some "B") [Resolved "/A.tsx"])]>
               ∅))
         ∅.

(** No dialog answer, no active editor. *)
Definition quiet : Ambient := mkAmbient None None JNull.

(** A picker that returns one path. *)
Definition picking (path : string) : Ambient :=
  mkAmbient (Some [path]) None JNull.

(** The provider right after construction in a workspace with one folder
    and an empty store. *)
Definition fresh : @World Parser :=
  mkWorld None (make (JStr "") (Some (defaultSettings "/ws"))) ∅ [] disk_cycle
          [Call (CallNew (JStr "") (Some (defaultSettings "/ws")))].

(** ... after the editor has resolved webview 1 ... *)
Definition attached : @World Parser := resolveWebviewView 1 fresh.

(** ... and after a tree was generated for [/A.tsx]. *)
Definition generated : @World Parser :=
  statusButtonClicked (Some "/A.tsx") quiet attached.

(** The same command before any webview is attached. *)
Definition generated_detached : @World Parser :=
  statusButtonClicked (Some "/A.tsx") quiet fresh.

Definition toggle_value : JsVal :=
  JObj [("id", JNum 1); ("expanded", JBool true)].

Definition toggle_message : JsVal :=
  JObj [("type", JStr "onNodeToggle"); ("value", toggle_value)].

Definition toggled : @World Parser :=
  default generated (onDidReceiveMessage 1 toggle_message quiet generated).

Definition useAlias_message : JsVal :=
  JObj [("type", JStr "settings");
        ("value", JArr [JStr "useAlias"; JBool true])].

Definition aliased : @World Parser :=
  default generated (onDidReceiveMessage 1 useAlias_message quiet generated).

(** A stored snapshot of the shape the specification names. *)
Definition spec_shaped_snapshot : JsVal :=
  JObj [("entryFilePath", JStr "/A.tsx");
        ("root", encode_node (leaf 0 "/A.tsx" true Plain))].

(** A stored snapshot as the modelled parser hands it out. *)
Definition stored_snapshot : JsVal :=
  JObj [("filePath", JStr "/A.tsx");
        ("root", encode_node (leaf 0 "/A.tsx" true Plain))].

End Scenarios.

(** ** Observations on the handlers

    Vocabulary for the properties of the handlers beyond the
    specification's statements. *)

Section HostObservations.

Context {P : Type} {parser_ops : SaplingParser P}.

(** The message types the switch of the message listener has a case for
    (lines 95-221). *)
Definition known_types : list string :=
  ["settings"; "onFile"; "onViewFile"; "onSaplingVisible";
   "onPreferencesAcquire"; "onNodeToggle"; "onBoldCheck"].

(** The settings fields the inner switch has a case for (lines 102-123). *)
Definition setting_fields : list string :=
  ["useAlias"; "appRoot"; "webpackConfig"; "tsConfig"].

(** [v] is none of the strings [names]. *)
Definition none_of (names : list string) (v : JsVal) : bool :=
  forallb (fun s => negb (js_is_str v s)) names.

(** A message that carries the tree or the settings to a webview. *)
Definition data_post (e : Effect) : bool :=
  match e with
  | PostMessage _ type _ =>
      String.eqb type "parsed-data" || String.eqb type "settings-data"
  | _ => false
  end.

(** The effects from [w] to [w'] post the tree and the settings either not
    at all or once, at the very end, as the four effects of [updateView]
    for the webview attached in [w] and the parser of [w']. *)
Definition bundled (w w' : @World P) : Prop :=
  exists pre,
    Forall (fun e => data_post e = false) pre /\
    (since w w' = pre \/
     exists v, _view w = Some v /\
               since w w' = pre ++ view_effects v (parser w')).

(** The cases of the switch over the message type (lines 95-221). *)
Inductive MessageKind : Type :=
| KSettings | KFile | KViewFile | KVisible | KPreferences | KToggle | KBold
| KOther.

(** The case a message type selects; the comparison is the strict equality
    of [switch], so anything but one of the seven strings selects none. *)
Definition kind_of (type : JsVal) : MessageKind :=
  if js_is_str type "settings" then KSettings
  else if js_is_str type "onFile" then KFile
  else if js_is_str type "onViewFile" then KViewFile
  else if js_is_str type "onSaplingVisible" then KVisible
  else if js_is_str type "onPreferencesAcquire" then KPreferences
  else if js_is_str type "onNodeToggle" then KToggle
  else if js_is_str type "onBoldCheck" then KBold
  else KOther.

(** What one run of the message listener of webview [view] can make of the
    world [w], per case: an early return or a case that does nothing; the
    tail of the ['settings'] case, with or without a field update; an
    entry-file selection; ['onViewFile']; ['onSaplingVisible'];
    ['onPreferencesAcquire']; ['onNodeToggle']; ['onBoldCheck']. *)
Inductive message_result (view : View) (w : @World P)
  : MessageKind -> @World P -> Prop :=
| result_unchanged kind : message_result view w kind w
| result_commit : message_result view w KSettings (settings_commit w)
| result_update_commit k x :
    message_result view w KSettings
      (settings_commit (call_updateSettings k x w))
| result_select f :
    f <> "" -> message_result view w KFile (select_entry f w)
| result_show x :
    message_result view w KViewFile (emit (ShowTextDocument x) w)
| result_refresh : message_result view w KVisible (updateView w)
| result_preferences x :
    message_result view w KPreferences
      (postMessage view "preferences-data" x w)
| result_toggle id flag :
    js_truthy (entryFile (parser w)) = true ->
    message_result view w KToggle
      (state_update "sapling" (fst (call_toggleNode id flag w))
                    (snd (call_toggleNode id flag w)))
| result_bold v f :
    _view w = Some v -> f <> "" ->
    message_result view w KBold (postMessage v "current-tab" (JStr f) w).

(** The parser methods the message listener never calls: the constructor,
    [setTree] and [updateTree]. *)
Definition rebuilding_call (c : ParserCall) : bool :=
  match c with
  | CallNew _ _ | CallSetTree _ | CallUpdateTree _ => true
  | _ => false
  end.

(** The file [statusButtonClicked] generates a tree for: the clicked
    resource if there is one, else the file of the active editor. *)
Definition chosen_file (uri : option string) (a : Ambient) : option string :=
  match uri with
  | Some path => Some path
  | None => activeTextEditor a
  end.

(** A sequence of events, handled one after the other. *)
Definition run (es : list Event) (w : @World P) : @World P :=
  foldl (fun acc e => step e acc) w es.

(** The path a picker answers with, as [selectFile] hands it on. *)
Definition picked (a : Ambient) : JsVal :=
  match openDialog a with
  | Some (path :: _) => JStr path
  | _ => JNull
  end.

End HostObservations.

(** ** Further scenarios *)

Module MoreScenarios.

Import SpecParser Scenarios.

Definition onFile_message : JsVal := JObj [("type", JStr "onFile")].

Definition visible_message : JsVal :=
  JObj [("type", JStr "onSaplingVisible")].

(** A message of a type the switch has no case for. *)
Definition stray_message : JsVal :=
  JObj [("type", JStr "refresh"); ("value", JNull)].

(** A toggle that carries no node. *)
Definition bare_toggle : JsVal := JObj [("type", JStr "onNodeToggle")].

(** A settings message for a field the inner switch does not know. *)
Definition theme_value : JsVal := JArr [JStr "theme"; JStr "dark"].

Definition theme_message : JsVal :=
  JObj [("type", JStr "settings"); ("value", theme_value)].

(** The webview is resolved a second time, the state cleared, a file
    saved. *)
Definition busy_events : list Event :=
  [ResolveWebviewView 2; ClearWorkSpaceState; DidSaveTextDocument "/B.tsx";
   DidReceiveMessage 2 useAlias_message quiet].

End MoreScenarios.

(** * Properties of the host, for every parser *)

Set Warnings "-clear-no-such-hyp".

Section HostProperties.

Context {P : Type} {parser_ops : SaplingParser P}.

Implicit Types (w : @World P) (v : View) (a : Ambient).

Ltac host_unfold :=
  unfold settings_commit, updateView, select_entry, clearWorkSpaceState,
    call_getTree, postMessage in *; simpl in *.

Ltac log_norm := simpl; rewrite <- ?app_assoc; simpl.

(** Writing one property leaves the others as they are. *)
Lemma js_field_set_other k k' x fs :
  k <> k' -> js_field k (js_set_field k' x fs) = js_field k fs.
Proof.
  intros Hne. induction fs as [|[k0 x0] fs IH]; simpl.
  - destruct (String.eqb_spec k k'); [contradiction|reflexivity].
  - destruct (String.eqb_spec k' k0) as [->|Hne0]; simpl.
    + destruct (String.eqb_spec k k0); [contradiction|reflexivity].
    + destruct (String.eqb_spec k k0); [reflexivity|exact IH].
Qed.

Lemma since_app w w' (effs : list Effect) :
  log w' = log w ++ effs -> since w w' = effs.
Proof. intros Hlog. unfold since. rewrite Hlog. apply drop_app_length. Qed.

Lemma since_refl w : since w w = [].
Proof. apply since_app. symmetry. apply app_nil_r. Qed.

(** [updateView] with a webview attached: one store update, two messages. *)
Lemma updateView_attached v w :
  _view w = Some v ->
  updateView w =
    mkWorld (Some v) (parser w)
      (memento_update "sapling" (getTree (parser w)) (workspaceState w))
      (listeners w) (disk w) (log w ++ view_effects v (parser w)).
Proof.
  intros Hv. destruct w as [vw p ws ls d l]. simpl in Hv. subst vw.
  host_unfold. log_norm. reflexivity.
Qed.

Lemma updateView_detached w : _view w = None -> updateView w = w.
Proof. intros Hv. unfold updateView. rewrite Hv. reflexivity. Qed.

Lemma updateView_parser w : parser (updateView w) = parser w.
Proof. destruct w as [[v|] p ws ls d l]; reflexivity. Qed.

Lemma updateView_view w : _view (updateView w) = _view w.
Proof. destruct w as [[v|] p ws ls d l]; reflexivity. Qed.

Lemma updateView_listeners w : listeners (updateView w) = listeners w.
Proof. destruct w as [[v|] p ws ls d l]; reflexivity. Qed.

Lemma updateView_log w :
  log (updateView w) =
  log w ++ match _view w with
           | Some v => view_effects v (parser w)
           | None => []
           end.
Proof.
  destruct w as [[v|] p ws ls d l]; host_unfold; log_norm.
  - reflexivity.
  - symmetry. apply app_nil_r.
Qed.

Lemma memento_get_update k x (m : gmap string JsVal) :
  memento_get k (memento_update k x m) = x.
Proof.
  unfold memento_get, memento_update.
  destruct x; rewrite ?lookup_delete_eq, ?lookup_insert_eq; reflexivity.
Qed.

Lemma memento_update_other k k' x (m : gmap string JsVal) :
  k <> k' -> memento_update k x m !! k' = m !! k'.
Proof.
  intros Hne. unfold memento_update.
  destruct x; rewrite ?lookup_delete_ne, ?lookup_insert_ne by done; reflexivity.
Qed.

(** *** The ['settings'] case *)

(** Which branch the ['settings'] case takes depends on the message and on
    the picker only. *)
Lemma on_settings_form value a :
  (forall w, on_settings value a w = None) \/
  (forall w, on_settings value a w = Some w) \/
  (forall w, on_settings value a w = Some (settings_commit w)) \/
  (exists k x, forall w,
      on_settings value a w = Some (settings_commit (call_updateSettings k x w))).
Proof.
  unfold on_settings.
  destruct (negb (js_truthy value)); [right; left; reflexivity|].
  destruct (js_is_str (js_index value 0) "useAlias").
  { right; right; right. eexists _, _. reflexivity. }
  destruct (js_is_str (js_index value 0) "appRoot").
  { destruct (selectFile false true (openDialog a)) as [[path|]|]; simpl;
      [|right; left; reflexivity|left; reflexivity].
    destruct (String.eqb path ""); [right; left; reflexivity|].
    right; right; right. eexists _, _. reflexivity. }
  destruct (js_is_str (js_index value 0) "webpackConfig"
            || js_is_str (js_index value 0) "tsConfig").
  { destruct (selectFile false false (openDialog a)) as [[path|]|]; simpl;
      [|right; left; reflexivity|left; reflexivity].
    destruct (js_index value 0); try (right; left; reflexivity).
    destruct (String.eqb path ""); [right; left; reflexivity|].
    right; right; right. eexists _, _. reflexivity. }
  right; right; left. reflexivity.
Qed.

(** The handler returns early, or runs the commit on the world it found
    or on that world after one field update. *)
Lemma on_settings_cases value a w w' :
  on_settings value a w = Some w' ->
  w' = w \/ w' = settings_commit w \/
  exists k x, w' = settings_commit (call_updateSettings k x w).
Proof.
  intros Hrun.
  destruct (on_settings_form value a) as [Hf | [Hf | [Hf | (k & x & Hf)]]];
    rewrite Hf in Hrun; [discriminate|left|right; left|right; right; exists k, x];
    congruence.
Qed.

Lemma settings_commit_log w :
  let ok := validSettings (disk w) (parser w) in
  let p' := if ok then parse (disk w) (parser w) else parser w in
  log (settings_commit w) =
  log w ++ [StateUpdate "saplingSettings" (settings (parser w));
            Call (CallValidSettings ok)]
        ++ (if ok then [Call CallParse] else [])
        ++ match _view w with
           | Some v => view_effects v p'
           | None => []
           end.
Proof.
  destruct w as [[v|] p ws ls d l]; host_unfold; simpl;
    destruct (validSettings d p); log_norm; reflexivity.
Qed.

Lemma settings_commit_parser w :
  parser (settings_commit w) =
  if validSettings (disk w) (parser w) then parse (disk w) (parser w)
  else parser w.
Proof.
  destruct w as [[v|] p ws ls d l]; host_unfold; simpl;
    destruct (validSettings d p); reflexivity.
Qed.

Lemma settings_commit_store w :
  memento_get "saplingSettings" (workspaceState (settings_commit w)) =
  settings (parser w).
Proof.
  destruct w as [[v|] p ws ls d l]; host_unfold; simpl;
    destruct (validSettings d p); simpl;
    try apply memento_get_update;
    unfold memento_get at 1; rewrite memento_update_other by done;
    apply memento_get_update.
Qed.

Lemma settings_commit_since w :
  let ok := validSettings (disk w) (parser w) in
  let p' := if ok then parse (disk w) (parser w) else parser w in
  since w (settings_commit w) =
  [StateUpdate "saplingSettings" (settings (parser w));
   Call (CallValidSettings ok)]
  ++ (if ok then [Call CallParse] else [])
  ++ match _view w with
     | Some v => view_effects v p'
     | None => []
     end.
Proof. intros ok p'. apply since_app. apply settings_commit_log. Qed.

Lemma update_commit_since k x w :
  let p1 := updateSettings k x (parser w) in
  let ok := validSettings (disk w) p1 in
  let p' := if ok then parse (disk w) p1 else p1 in
  since w (settings_commit (call_updateSettings k x w)) =
  [Call (CallUpdateSettings k x);
   StateUpdate "saplingSettings" (settings p1);
   Call (CallValidSettings ok)]
  ++ (if ok then [Call CallParse] else [])
  ++ match _view w with
     | Some v => view_effects v p'
     | None => []
     end.
Proof.
  intros p1 ok p'. apply since_app. rewrite settings_commit_log.
  destruct w as [vw p ws ls d l]. simpl. log_norm. reflexivity.
Qed.

(** C10: in the ['settings'] case, among the effects of one run of the
    handler, [parse()] is called exactly when [validSettings()] has
    returned true; and whenever a field update was applied, the updated
    settings are written to the store under ['saplingSettings'] and, with a
    webview attached, posted to it as ['settings-data'], whether or not
    they are valid. *)
Theorem settings_parse_iff_valid value a w w' :
  on_settings value a w = Some w' ->
  (In (Call CallParse) (since w w') <->
   In (Call (CallValidSettings true)) (since w w')) /\
  (forall k x, In (Call (CallUpdateSettings k x)) (since w w') ->
     let p1 := updateSettings k x (parser w) in
     let ok := validSettings (disk w) p1 in
     parser w' = (if ok then parse (disk w) p1 else p1) /\
     In (Call (CallValidSettings ok)) (since w w') /\
     In (StateUpdate "saplingSettings" (settings p1)) (since w w') /\
     memento_get "saplingSettings" (workspaceState w') = settings p1 /\
     forall v, _view w = Some v ->
       In (PostMessage v "settings-data" (settings (parser w')))
          (since w w')).
Proof.
  intros Hrun.
  destruct (on_settings_cases _ _ _ _ Hrun) as [-> | [-> | (k0 & x0 & ->)]].
  - rewrite since_refl. simpl. tauto.
  - rewrite settings_commit_since. split.
    + destruct (validSettings (disk w) (parser w)), (_view w);
        unfold view_effects; simpl; naive_solver.
    + intros k x Hin. exfalso.
      destruct (validSettings (disk w) (parser w)), (_view w);
        unfold view_effects in Hin; simpl in Hin; naive_solver.
  - rewrite update_commit_since. split.
    + destruct (validSettings _ _), (_view w);
        unfold view_effects; simpl; naive_solver.
    + intros k x Hin.
      assert (k = k0 /\ x = x0) as [-> ->].
      { destruct (validSettings _ _), (_view w);
          unfold view_effects in Hin; simpl in Hin; naive_solver. }
      clear Hin. cbv zeta. rewrite settings_commit_parser, settings_commit_store.
      destruct w as [vw p ws ls d l]; simpl.
      split; [reflexivity|]. split; [right; right; left; reflexivity|].
      split; [right; left; reflexivity|]. split; [reflexivity|].
      intros v ->. destruct (validSettings d (updateSettings k0 x0 p));
        unfold view_effects; simpl; naive_solver.
Qed.

(** *** Dispatch on the message type *)

Lemma message_settings view data a w :
  js_prop "type" data = Some (JStr "settings") ->
  exists value, js_prop "value" data = Some value /\
    onDidReceiveMessage view data a w = on_settings value a w.
Proof.
  intros Hty. unfold onDidReceiveMessage. rewrite Hty. simpl.
  destruct data; try discriminate; eexists; split; reflexivity.
Qed.

Lemma message_onFile view data a w :
  js_prop "type" data = Some (JStr "onFile") ->
  onDidReceiveMessage view data a w = on_file a w.
Proof.
  intros Hty. unfold onDidReceiveMessage. rewrite Hty. simpl.
  destruct data; try discriminate; reflexivity.
Qed.

Lemma message_onNodeToggle view data a w :
  js_prop "type" data = Some (JStr "onNodeToggle") ->
  exists value, js_prop "value" data = Some value /\
    onDidReceiveMessage view data a w = on_node_toggle value w.
Proof.
  intros Hty. unfold onDidReceiveMessage. rewrite Hty. simpl.
  destruct data; try discriminate; eexists; split; reflexivity.
Qed.

(** *** Entry-file selection *)

Lemma select_entry_parser f w :
  parser (select_entry f w) = parse (disk w) (setEntryFile f (parser w)).
Proof. destruct w as [[v|] p ws ls d l]; reflexivity. Qed.

Lemma select_entry_since f w :
  since w (select_entry f w) =
  [Call (CallSetEntryFile f); Call CallParse]
  ++ match _view w with
     | Some v => view_effects v (parse (disk w) (setEntryFile f (parser w)))
     | None => []
     end.
Proof.
  apply since_app. unfold select_entry. rewrite updateView_log.
  destruct w as [vw p ws ls d l]. simpl. log_norm. reflexivity.
Qed.

Lemma select_entry_store f w :
  workspaceState (select_entry f w) =
  match _view w with
  | Some _ =>
      memento_update "sapling"
        (getTree (parse (disk w) (setEntryFile f (parser w))))
        (workspaceState w)
  | None => workspaceState w
  end.
Proof. destruct w as [[v|] p ws ls d l]; reflexivity. Qed.

Lemma on_file_cases a w w' :
  on_file a w = Some w' ->
  w' = w \/ exists f, f <> "" /\ w' = select_entry f w.
Proof.
  unfold on_file. intros Hrun.
  destruct (selectFile false false (openDialog a)) as [[path|]|];
    simpl in Hrun; try discriminate; [|left; congruence].
  destruct (String.eqb_spec path ""); [left; congruence|].
  right. exists path. split; [assumption|]. unfold select_entry. congruence.
Qed.

Lemma statusButtonClicked_cases uri a w :
  statusButtonClicked uri a w = w \/
  exists f, f <> "" /\ statusButtonClicked uri a w = select_entry f w.
Proof.
  assert (forall path,
             (if String.eqb path "" then w else select_entry path w) = w \/
             exists f, f <> "" /\
               (if String.eqb path "" then w else select_entry path w)
               = select_entry f w) as Hgen.
  { intros path. destruct (String.eqb_spec path ""); [left; reflexivity|].
    right. exists path. split; [assumption|reflexivity]. }
  unfold statusButtonClicked.
  destruct uri as [path|]; [apply Hgen|].
  destruct (activeTextEditor a) as [path|]; [apply Hgen|left; reflexivity].
Qed.

(** *** File saved *)

Lemma onDidSaveTextDocument_ignored f w :
  js_truthy (entryFile (parser w)) = false -> onDidSaveTextDocument f w = w.
Proof. intros Hentry. unfold onDidSaveTextDocument. rewrite Hentry. reflexivity. Qed.

Lemma onDidSaveTextDocument_routed f w :
  js_truthy (entryFile (parser w)) = true ->
  onDidSaveTextDocument f w = updateView (call_updateTree f w).
Proof. intros Hentry. unfold onDidSaveTextDocument. rewrite Hentry. reflexivity. Qed.

Lemma save_since f w :
  since w (updateView (call_updateTree f w)) =
  Call (CallUpdateTree f)
  :: match _view w with
     | Some v => view_effects v (updateTree (disk w) f (parser w))
     | None => []
     end.
Proof.
  apply since_app. rewrite updateView_log.
  destruct w as [vw p ws ls d l]. simpl. log_norm. reflexivity.
Qed.

(** *** Node toggle *)

Lemma on_node_toggle_ignored value w :
  js_truthy (entryFile (parser w)) = false -> on_node_toggle value w = Some w.
Proof. intros Hentry. unfold on_node_toggle. rewrite Hentry. reflexivity. Qed.

(** With an entry file set, a toggle whose payload carries [id] and
    [expanded] calls [toggleNode] and stores the tree it returns. *)
Lemma on_node_toggle_routed value id flag w :
  js_truthy (entryFile (parser w)) = true ->
  js_prop "id" value = Some id ->
  js_prop "expanded" value = Some flag ->
  on_node_toggle value w =
  Some (mkWorld (_view w) (fst (toggleNode id flag (parser w)))
          (memento_update "sapling" (snd (toggleNode id flag (parser w)))
                          (workspaceState w))
          (listeners w) (disk w)
          (log w ++ [Call (CallToggleNode id flag);
                     StateUpdate "sapling"
                       (snd (toggleNode id flag (parser w)))])).
Proof.
  intros Hentry Hid Hflag. unfold on_node_toggle.
  rewrite Hentry, Hid, Hflag. simpl. host_unfold.
  destruct w as [vw p ws ls d l]. simpl.
  destruct (toggleNode id flag p) as [p' tree]. log_norm. reflexivity.
Qed.

Lemma on_node_toggle_no_post value w w' :
  on_node_toggle value w = Some w' ->
  forall target type x, ~ In (PostMessage target type x) (since w w').
Proof.
  intros Hrun target type x.
  destruct (js_truthy (entryFile (parser w))) eqn:Hentry.
  - pose proof Hrun as Hcopy. unfold on_node_toggle in Hcopy.
    rewrite Hentry in Hcopy. simpl in Hcopy.
    destruct (js_prop "id" value) as [id|] eqn:Hid; [|discriminate].
    destruct (js_prop "expanded" value) as [flag|] eqn:Hflag; [|discriminate].
    rewrite (on_node_toggle_routed _ _ _ _ Hentry Hid Hflag) in Hrun.
    injection Hrun as <-.
    erewrite since_app by reflexivity. simpl. naive_solver.
  - rewrite (on_node_toggle_ignored _ _ Hentry) in Hrun.
    injection Hrun as <-. rewrite since_refl. simpl. tauto.
Qed.

(** *** Emission to the webview *)

Lemma emits_of_view_effects v w w' pre :
  since w w' = pre ++ view_effects v (parser w') -> emits_view_data v w w'.
Proof.
  intros Hs. exists (pre ++ [Call CallGetTree;
                             StateUpdate "sapling" (getTree (parser w'))]).
  rewrite Hs. unfold view_effects. rewrite <- app_assoc. reflexivity.
Qed.

Lemma settings_commit_emits v w0 w :
  _view w = Some v -> log w = log w0 ++ since w0 w ->
  emits_view_data v w0 (settings_commit w).
Proof.
  intros Hv Hlog.
  apply (emits_of_view_effects _ _ _
           (since w0 w
            ++ [StateUpdate "saplingSettings" (settings (parser w));
                Call (CallValidSettings (validSettings (disk w) (parser w)))]
            ++ (if validSettings (disk w) (parser w)
                then [Call CallParse] else []))).
  apply since_app. rewrite settings_commit_log, settings_commit_parser, Hv, Hlog.
  rewrite <- !app_assoc. reflexivity.
Qed.

Lemma select_entry_emits v f w :
  _view w = Some v -> emits_view_data v w (select_entry f w).
Proof.
  intros Hv.
  apply (emits_of_view_effects _ _ _
           [Call (CallSetEntryFile f); Call CallParse]).
  rewrite select_entry_since, select_entry_parser, Hv. reflexivity.
Qed.

Lemma on_settings_emits v value a w w' :
  _view w = Some v -> on_settings value a w = Some w' ->
  since w w' <> [] -> emits_view_data v w w'.
Proof.
  intros Hv Hrun Hnew.
  destruct (on_settings_cases _ _ _ _ Hrun) as [-> | [-> | (k & x & ->)]].
  - rewrite since_refl in Hnew. contradiction.
  - apply settings_commit_emits; [assumption|].
    rewrite since_refl. symmetry. apply app_nil_r.
  - destruct w as [vw p ws ls d l]. apply settings_commit_emits.
    + assumption.
    + erewrite (since_app _ (call_updateSettings k x _)) by reflexivity.
      reflexivity.
Qed.

(** C1 (as amended): with a webview attached, a settings update, an
    entry-file selection (from the panel or from the command) and a
    file-saved rebuild each end by posting the parser's current tree as
    ['parsed-data'] and its current settings as ['settings-data'] to that
    webview, whenever the handler does anything at all; a node toggle posts
    no message. *)
Theorem mutation_emits_view_data v w :
  _view w = Some v ->
  (forall view data a w',
      js_prop "type" data = Some (JStr "settings") \/
      js_prop "type" data = Some (JStr "onFile") ->
      onDidReceiveMessage view data a w = Some w' ->
      since w w' <> [] -> emits_view_data v w w') /\
  (forall uri a,
      since w (statusButtonClicked uri a w) <> [] ->
      emits_view_data v w (statusButtonClicked uri a w)) /\
  (forall f,
      since w (onDidSaveTextDocument f w) <> [] ->
      emits_view_data v w (onDidSaveTextDocument f w)) /\
  (forall view data a w',
      js_prop "type" data = Some (JStr "onNodeToggle") ->
      onDidReceiveMessage view data a w = Some w' ->
      forall target type x, ~ In (PostMessage target type x) (since w w')).
Proof.
  intros Hv. repeat split.
  - intros view data a w' [Hty | Hty] Hrun Hnew.
    + destruct (message_settings view data a w Hty) as (value & _ & Heq).
      rewrite Heq in Hrun. eapply on_settings_emits; eassumption.
    + rewrite (message_onFile view data a w Hty) in Hrun.
      destruct (on_file_cases _ _ _ Hrun) as [-> | (f & _ & ->)].
      * rewrite since_refl in Hnew. contradiction.
      * apply select_entry_emits. assumption.
  - intros uri a Hnew.
    destruct (statusButtonClicked_cases uri a w) as [Heq | (f & _ & Heq)];
      rewrite Heq in *.
    + rewrite since_refl in Hnew. contradiction.
    + apply select_entry_emits. assumption.
  - intros f Hnew.
    destruct (js_truthy (entryFile (parser w))) eqn:Hentry.
    + rewrite (onDidSaveTextDocument_routed _ _ Hentry).
      apply (emits_of_view_effects _ _ _ [Call (CallUpdateTree f)]).
      rewrite save_since, updateView_parser, Hv. destruct w; reflexivity.
    + rewrite (onDidSaveTextDocument_ignored _ _ Hentry) in Hnew.
      rewrite since_refl in Hnew. contradiction.
  - intros view data a w' Hty Hrun.
    destruct (message_onNodeToggle view data a w Hty) as (value & _ & Heq).
    rewrite Heq in Hrun. eapply on_node_toggle_no_post. eassumption.
Qed.

(** C2 (as amended): a document-save event that finds a non-empty entry
    file in the parser passes the saved file's path to [updateTree] and
    then runs [updateView], which with a webview attached stores and posts
    the updated tree; one that finds the entry file empty is ignored. *)
Theorem save_routed_to_updateTree f w :
  (js_truthy (entryFile (parser w)) = true ->
   parser (onDidSaveTextDocument f w) = updateTree (disk w) f (parser w) /\
   since w (onDidSaveTextDocument f w) =
   Call (CallUpdateTree f)
   :: match _view w with
      | Some v => view_effects v (updateTree (disk w) f (parser w))
      | None => []
      end) /\
  (js_truthy (entryFile (parser w)) = false ->
   onDidSaveTextDocument f w = w).
Proof.
  split; [|apply onDidSaveTextDocument_ignored].
  intros Hentry. rewrite (onDidSaveTextDocument_routed _ _ Hentry).
  split; [|apply save_since].
  rewrite updateView_parser. destruct w; reflexivity.
Qed.

(** C8: [clearWorkSpaceState] writes undefined under ['sapling'] and under
    ['saplingSettings'], replaces the parser by [new SaplingParser('')] and
    then runs [updateView]; afterwards the store has no settings, and under
    ['sapling'] at most the tree of the fresh parser. *)
Theorem clearWorkSpaceState_resets w :
  parser (clearWorkSpaceState w) = new_parser (JStr "") None /\
  since w (clearWorkSpaceState w) =
    [StateUpdate "sapling" JUndefined;
     StateUpdate "saplingSettings" JUndefined;
     Call (CallNew (JStr "") None)]
    ++ match _view w with
       | Some v => view_effects v (new_parser (JStr "") None)
       | None => []
       end /\
  workspaceState (clearWorkSpaceState w) !! "saplingSettings" = None /\
  memento_get "sapling" (workspaceState (clearWorkSpaceState w)) =
    match _view w with
    | Some _ => getTree (new_parser (JStr "") None)
    | None => JUndefined
    end.
Proof.
  destruct w as [[v|] p ws ls d l]; unfold clearWorkSpaceState;
    (split; [reflexivity|]);
    (split; [apply since_app; host_unfold; log_norm; reflexivity|]);
    host_unfold.
  - split; [|apply memento_get_update].
    rewrite memento_update_other by done.
    unfold memento_update. apply lookup_delete_eq.
  - unfold memento_get, memento_update. split; [apply lookup_delete_eq|].
    rewrite lookup_delete_ne by done.
    rewrite lookup_delete_eq. reflexivity.
Qed.

(** *** Attachment of the webview over a run *)


Lemma onDidSaveTextDocument_shell f w :
  same_shell w (onDidSaveTextDocument f w).
Proof.
  unfold onDidSaveTextDocument.
  destruct (negb _); [split; reflexivity|].
  split; [rewrite updateView_view | rewrite updateView_listeners];
    destruct w; reflexivity.
Qed.

Lemma settings_commit_shell w : same_shell w (settings_commit w).
Proof.
  destruct w as [[v|] p ws ls d l]; host_unfold;
    destruct (validSettings d p); split; reflexivity.
Qed.

Lemma select_entry_shell f w : same_shell w (select_entry f w).
Proof. destruct w as [[v|] p ws ls d l]; split; reflexivity. Qed.

Lemma on_node_toggle_shell value w w' :
  on_node_toggle value w = Some w' -> same_shell w w'.
Proof.
  intros Hrun.
  destruct (js_truthy (entryFile (parser w))) eqn:Hentry.
  - pose proof Hrun as Hcopy. unfold on_node_toggle in Hcopy.
    rewrite Hentry in Hcopy. simpl in Hcopy.
    destruct (js_prop "id" value) as [id|] eqn:Hid; [|discriminate].
    destruct (js_prop "expanded" value) as [flag|] eqn:Hflag; [|discriminate].
    rewrite (on_node_toggle_routed _ _ _ _ Hentry Hid Hflag) in Hrun.
    injection Hrun as <-. split; reflexivity.
  - rewrite (on_node_toggle_ignored _ _ Hentry) in Hrun.
    injection Hrun as <-. split; reflexivity.
Qed.

Lemma on_bold_check_shell a w : same_shell w (on_bold_check a w).
Proof.
  unfold on_bold_check.
  destruct w as [[v|] p ws ls d l]; simpl; [|split; reflexivity].
  destruct (activeTextEditor a); [|split; reflexivity].
  destruct (String.eqb _ _); split; reflexivity.
Qed.

Lemma onDidReceiveMessage_shell view data a w w' :
  onDidReceiveMessage view data a w = Some w' -> same_shell w w'.
Proof.
  unfold onDidReceiveMessage. intros Hrun.
  destruct (js_prop "type" data) as [type|]; [|discriminate].
  destruct (js_prop "value" data) as [value|]; [|discriminate].
  simpl in Hrun.
  destruct (js_is_str type "settings").
  { destruct (on_settings_cases _ _ _ _ Hrun) as [-> | [-> | (k & x & ->)]].
    - split; reflexivity.
    - apply settings_commit_shell.
    - destruct (settings_commit_shell (call_updateSettings k x w)) as [Hv Hl].
      split; [rewrite Hv | rewrite Hl]; destruct w; reflexivity. }
  destruct (js_is_str type "onFile").
  { destruct (on_file_cases _ _ _ Hrun) as [-> | (f & _ & ->)].
    - split; reflexivity.
    - apply select_entry_shell. }
  destruct (js_is_str type "onViewFile").
  { destruct (negb (js_truthy value)); injection Hrun as <-;
      [split; reflexivity | destruct w; split; reflexivity]. }
  destruct (js_is_str type "onSaplingVisible").
  { injection Hrun as <-.
    split; [apply updateView_view | apply updateView_listeners]. }
  destruct (js_is_str type "onPreferencesAcquire").
  { injection Hrun as <-. destruct w; split; reflexivity. }
  destruct (js_is_str type "onNodeToggle").
  { eapply on_node_toggle_shell. eassumption. }
  destruct (js_is_str type "onBoldCheck").
  { injection Hrun as <-. apply on_bold_check_shell. }
  injection Hrun as <-. split; reflexivity.
Qed.

Lemma run_listeners_shell (h : View -> @World P -> @World P) vs w :
  (forall v w0, same_shell w0 (h v w0)) ->
  same_shell w (run_listeners h vs w).
Proof.
  intros Hh. revert w. induction vs as [|v vs IH]; intros w; simpl.
  - split; reflexivity.
  - destruct (IH (h v w)) as [Hv Hl]. destruct (Hh v w) as [Hv' Hl'].
    split; congruence.
Qed.

Lemma step_shell e w :
  (forall v, e <> ResolveWebviewView v) -> (forall v, e <> Revive v) ->
  same_shell w (step e w).
Proof.
  intros Hres Hrev. destruct e; simpl.
  - exfalso. eapply Hres. reflexivity.
  - exfalso. eapply Hrev. reflexivity.
  - apply run_listeners_shell. intros v w0. destruct w0; split; reflexivity.
  - apply run_listeners_shell. intros v w0. destruct w0; split; reflexivity.
  - apply run_listeners_shell. intros v w0. apply onDidSaveTextDocument_shell.
  - apply run_listeners_shell. intros v w0.
    destruct (onDidReceiveMessage v data a w0) eqn:Hrun; simpl.
    + eapply onDidReceiveMessage_shell. eassumption.
    + split; reflexivity.
  - destruct (statusButtonClicked_cases uri a w) as [-> | (f & _ & ->)].
    + split; reflexivity.
    + apply select_entry_shell.
  - unfold clearWorkSpaceState.
    split; [rewrite updateView_view | rewrite updateView_listeners];
      destruct w; reflexivity.
Qed.

Lemma SidebarProvider_new_shell store folders d w :
  SidebarProvider_new store folders d = Some w ->
  _view w = None /\ listeners w = [].
Proof.
  unfold SidebarProvider_new. intros Hnew.
  destruct (workspaceRoot folders); [|discriminate]. simpl in Hnew.
  destruct (js_truthy (memento_get "sapling" store)).
  - destruct (js_prop "filePath" _); [|discriminate].
    injection Hnew as <-. split; reflexivity.
  - injection Hnew as <-. split; reflexivity.
Qed.

(** Listeners exist only once a webview has been attached, and a webview
    once attached is never detached. *)
Lemma reachable_detached w :
  Reachable w -> _view w = None -> listeners w = [].
Proof.
  induction 1 as [store folders d w Hnew | e w Hw IH | d w Hw IH]; intros Hv.
  - eapply SidebarProvider_new_shell. eassumption.
  - assert ((forall v, e <> ResolveWebviewView v) /\
            (forall v, e <> Revive v)) as [Hres Hrev].
    { split; intros v ->; simpl in Hv; destruct w; discriminate. }
    destruct (step_shell e w Hres Hrev) as [Hv' Hl'].
    rewrite Hl'. apply IH. congruence.
  - destruct w. apply IH. assumption.
Qed.

(** C9: without a webview attached [updateView] changes nothing: no
    message, no store update.  Hence in every world the extension can be in
    before a webview attaches, every event other than the explicit
    clearing of the workspace state leaves the store as it is and posts
    nothing. *)
Theorem updateView_without_view w :
  _view w = None ->
  updateView w = w /\
  (Reachable w ->
   forall e, e <> ClearWorkSpaceState ->
     workspaceState (step e w) = workspaceState w /\
     forall target type x,
       ~ In (PostMessage target type x) (since w (step e w))).
Proof.
  intros Hv. split; [apply updateView_detached; assumption|].
  intros Hreach e Hclear.
  pose proof (reachable_detached w Hreach Hv) as Hl.
  assert (forall target type x,
             ~ In (PostMessage target type x) (since w w)) as Hquiet.
  { intros target type x. rewrite since_refl. simpl. tauto. }
  destruct e; simpl; rewrite ?Hl; simpl; try (split; [reflexivity|exact Hquiet]).
  - destruct w; simpl. split; [reflexivity|]. intros target type x.
    erewrite since_app by (simpl; symmetry; apply app_nil_r). simpl. tauto.
  - destruct w; simpl. split; [reflexivity|]. intros target type x.
    erewrite since_app by (simpl; symmetry; apply app_nil_r). simpl. tauto.
  - destruct (statusButtonClicked_cases uri a w) as [-> | (f & _ & ->)].
    + split; [reflexivity|exact Hquiet].
    + rewrite select_entry_store, select_entry_since, Hv.
      split; [reflexivity|]. intros target type x. simpl. naive_solver.
  - contradiction.
Qed.

(** *** Construction *)


Lemma js_prop_truthy k x : js_truthy x = true -> is_Some (js_prop k x).
Proof. destruct x; simpl; intros Ht; try discriminate; eexists; reflexivity. Qed.

Lemma SidebarProvider_new_restores store folders d snap root :
  store !! "sapling" = Some snap -> js_truthy snap = true ->
  workspaceRoot folders = Some root ->
  exists fp,
    js_prop "filePath" snap = Some fp /\
    SidebarProvider_new store folders d =
    Some (mkWorld None
            (setTree snap (new_parser fp (Some (initial_settings store root))))
            store [] d
            [Call (CallNew fp (Some (initial_settings store root)));
             Call (CallSetTree snap)]).
Proof.
  intros Hsnap Htruthy Hroot.
  destruct (js_prop_truthy "filePath" snap Htruthy) as [fp Hfp].
  exists fp. split; [exact Hfp|].
  assert (memento_get "sapling" store = snap) as Hget
      by (unfold memento_get; rewrite Hsnap; reflexivity).
  unfold SidebarProvider_new. rewrite Hget, Hroot. simpl.
  rewrite Htruthy, Hfp. reflexivity.
Qed.

Lemma SidebarProvider_new_fresh store folders d root :
  js_truthy (memento_get "sapling" store) = false ->
  workspaceRoot folders = Some root ->
  SidebarProvider_new store folders d =
  Some (mkWorld None (new_parser (JStr "") (Some (initial_settings store root)))
          store [] d
          [Call (CallNew (JStr "") (Some (initial_settings store root)))]).
Proof.
  intros Hnone Hroot. unfold SidebarProvider_new.
  rewrite Hroot. simpl. rewrite Hnone. reflexivity.
Qed.

(** Without persisted settings and with a first workspace folder, or with
    no folder list at all, the parser is built with the default settings. *)
Lemma SidebarProvider_new_default_settings store folders d root :
  js_truthy (memento_get "saplingSettings" store) = false ->
  workspaceRoot folders = Some root ->
  exists w fp,
    SidebarProvider_new store folders d = Some w /\
    head (log w) = Some (Call (CallNew fp (Some (defaultSettings root)))).
Proof.
  intros Hnone Hroot.
  assert (initial_settings store root = defaultSettings root) as Hinit.
  { unfold initial_settings. rewrite Hnone. reflexivity. }
  destruct (js_truthy (memento_get "sapling" store)) eqn:Htree.
  - destruct (store !! "sapling") as [snap|] eqn:Hsnap;
      [|unfold memento_get in Htree; rewrite Hsnap in Htree; discriminate].
    assert (js_truthy snap = true) as Hts
        by (unfold memento_get in Htree; rewrite Hsnap in Htree; exact Htree).
    destruct (SidebarProvider_new_restores store folders d snap root
                Hsnap Hts Hroot) as (fp & _ & ->).
    eexists _, fp. split; [reflexivity|]. simpl. rewrite Hinit. reflexivity.
  - rewrite (SidebarProvider_new_fresh store folders d root Htree Hroot).
    eexists _, _. split; [reflexivity|]. simpl. rewrite Hinit. reflexivity.
Qed.

(** C5 (the failing input): when the editor reports an empty list of
    workspace folders, which is truthy, the constructor reads [uri] of the
    missing first folder and throws instead of falling back to the empty
    string. *)
Theorem constructor_throws_on_empty_folders store d :
  SidebarProvider_new store (Some []) d = None.
Proof. reflexivity. Qed.

(** C4 (as amended): the entry file of a restored snapshot is what the
    snapshot holds under [filePath]: with a truthy value stored under
    ['sapling'], the constructor builds the parser from that property and
    then hands the whole snapshot to [setTree].  What the snapshot holds
    under [entryFilePath] has no part in it. *)
Theorem snapshot_entry_read_from_filePath store folders d snap root :
  store !! "sapling" = Some snap -> js_truthy snap = true ->
  workspaceRoot folders = Some root ->
  exists fp w,
    js_prop "filePath" snap = Some fp /\
    SidebarProvider_new store folders d = Some w /\
    (exists st,
        parser w = setTree snap (new_parser fp (Some st)) /\
        log w = [Call (CallNew fp (Some st)); Call (CallSetTree snap)]) /\
    (forall fs x,
        snap = JObj fs ->
        js_prop "filePath" (JObj (js_set_field "entryFilePath" x fs))
        = Some fp).
Proof.
  intros Hsnap Htruthy Hroot.
  destruct (SidebarProvider_new_restores store folders d snap root
              Hsnap Htruthy Hroot) as (fp & Hfp & Hnew).
  exists fp. eexists. split; [exact Hfp|]. split; [exact Hnew|]. split.
  - eexists. split; reflexivity.
  - intros fs x ->. simpl in Hfp |- *.
    rewrite js_field_set_other by discriminate. exact Hfp.
Qed.

(** *** The store is write-only after construction *)

Lemma store_blind_id : store_blind (P:=P) (fun w => w).
Proof. intros w m. exists m. reflexivity. Qed.

Lemma store_blind_compose h1 h2 :
  store_blind h1 -> store_blind h2 -> store_blind (fun w => h2 (h1 w)).
Proof.
  intros H1 H2 w m. destruct (H1 w m) as [m1 ->]. apply H2.
Qed.

Lemma store_blind_some h : store_blind h -> store_blind_opt (fun w => Some (h w)).
Proof. intros Hh w m. destruct (Hh w m) as [m' ->]. exists m'. reflexivity. Qed.

Lemma updateView_blind : store_blind (P:=P) updateView.
Proof.
  intros [[v|] p ws ls d l] m; unfold updateView; simpl; eexists; reflexivity.
Qed.

Lemma settings_commit_blind : store_blind (P:=P) settings_commit.
Proof.
  intros [[v|] p ws ls d l] m; unfold settings_commit, updateView; simpl;
    destruct (validSettings d p); simpl; eexists; reflexivity.
Qed.

Lemma call_updateSettings_blind k x : store_blind (P:=P) (call_updateSettings k x).
Proof. intros [v p ws ls d l] m. exists m. reflexivity. Qed.

Lemma select_entry_blind f : store_blind (P:=P) (select_entry f).
Proof.
  intros [[v|] p ws ls d l] m; unfold select_entry, updateView; simpl;
    eexists; reflexivity.
Qed.

Lemma on_settings_blind value a : store_blind_opt (P:=P) (on_settings value a).
Proof.
  intros w m.
  destruct (on_settings_form value a) as [Hf | [Hf | [Hf | (k & x & Hf)]]];
    rewrite !Hf.
  - reflexivity.
  - exists m. reflexivity.
  - destruct (settings_commit_blind w m) as [m' ->]. exists m'. reflexivity.
  - destruct (store_blind_compose _ _ (call_updateSettings_blind k x)
                settings_commit_blind w m) as [m' ->].
    exists m'. reflexivity.
Qed.

Lemma on_file_blind a : store_blind_opt (P:=P) (on_file a).
Proof.
  intros w m. unfold on_file.
  destruct (selectFile false false (openDialog a)) as [[path|]|]; simpl;
    [|exists m; reflexivity|reflexivity].
  destruct (String.eqb path ""); [exists m; reflexivity|].
  destruct (select_entry_blind path w m) as [m' Hm].
  exists m'. unfold select_entry in Hm. rewrite Hm. reflexivity.
Qed.

Lemma on_node_toggle_blind value : store_blind_opt (P:=P) (on_node_toggle value).
Proof.
  intros [v p ws ls d l] m. unfold on_node_toggle. simpl.
  destruct (negb (js_truthy (entryFile p))); [exists m; reflexivity|].
  destruct (js_prop "id" value) as [id|]; [|reflexivity].
  destruct (js_prop "expanded" value) as [flag|]; [|reflexivity].
  simpl. destruct (toggleNode id flag p) as [p' tree]. simpl.
  eexists. reflexivity.
Qed.

Lemma on_bold_check_blind a : store_blind (P:=P) (on_bold_check a).
Proof.
  intros [[v|] p ws ls d l] m; unfold on_bold_check; simpl;
    [|exists m; reflexivity].
  destruct (activeTextEditor a); [|exists m; reflexivity].
  destruct (String.eqb _ _); exists m; reflexivity.
Qed.

Lemma emit_blind e : store_blind (P:=P) (emit e).
Proof. intros [v p ws ls d l] m. exists m. reflexivity. Qed.

Lemma onDidReceiveMessage_blind view data a :
  store_blind_opt (onDidReceiveMessage view data a).
Proof.
  unfold onDidReceiveMessage.
  destruct (js_prop "type" data) as [type|]; [|intros w m; reflexivity].
  destruct (js_prop "value" data) as [value|]; [|intros w m; reflexivity].
  simpl.
  destruct (js_is_str type "settings"); [apply on_settings_blind|].
  destruct (js_is_str type "onFile"); [apply on_file_blind|].
  destruct (js_is_str type "onViewFile").
  { destruct (negb (js_truthy value)).
    - apply (store_blind_some _ store_blind_id).
    - apply (store_blind_some _ (emit_blind _)). }
  destruct (js_is_str type "onSaplingVisible");
    [apply (store_blind_some _ updateView_blind)|].
  destruct (js_is_str type "onPreferencesAcquire");
    [apply (store_blind_some _ (emit_blind _))|].
  destruct (js_is_str type "onNodeToggle"); [apply on_node_toggle_blind|].
  destruct (js_is_str type "onBoldCheck");
    [apply (store_blind_some _ (on_bold_check_blind a))|].
  apply (store_blind_some _ store_blind_id).
Qed.

Lemma run_listeners_blind (h : View -> @World P -> @World P) vs :
  (forall v, store_blind (h v)) -> store_blind (run_listeners h vs).
Proof.
  intros Hh. induction vs as [|v vs IH]; intros w m; simpl.
  - exists m. reflexivity.
  - destruct (Hh v w m) as [m1 ->]. apply IH.
Qed.

Lemma with_store_listeners m w : listeners (with_store m w) = listeners w.
Proof. destruct w; reflexivity. Qed.

(** No event handler reads the workspace store: changing what the store
    holds changes nothing but the store of the resulting world. *)
Lemma step_blind e : store_blind (P:=P) (step e).
Proof.
  intros w m. destruct e; simpl; rewrite ?with_store_listeners.
  - destruct w. exists m. reflexivity.
  - destruct w. exists m. reflexivity.
  - apply run_listeners_blind. intros v. apply emit_blind.
  - apply run_listeners_blind. intros v. apply emit_blind.
  - apply run_listeners_blind. intros _ w0 m0. unfold onDidSaveTextDocument.
    destruct w0 as [v0 p ws ls d l]. simpl.
    destruct (negb (js_truthy (entryFile p))); [exists m0; reflexivity|].
    apply (store_blind_compose (call_updateTree fileName) updateView
             ltac:(intros [? ? ? ? ? ?] m1; exists m1; reflexivity)
             updateView_blind (mkWorld v0 p ws ls d l) m0).
  - apply run_listeners_blind. intros v w0 m0.
    pose proof (onDidReceiveMessage_blind v data a w0 m0) as Hb.
    destruct (onDidReceiveMessage v data a w0) as [w1|].
    + destruct Hb as [m' ->]. exists m'. reflexivity.
    + rewrite Hb. exists m0. reflexivity.
  - unfold statusButtonClicked.
    assert (forall path, exists m',
               (if String.eqb path "" then with_store m w
                else updateView (call_parse
                                   (call_setEntryFile path (with_store m w))))
               = with_store m' (if String.eqb path "" then w
                                else updateView (call_parse
                                                   (call_setEntryFile path w))))
      as Hgen.
    { intros path. destruct (String.eqb path ""); [exists m; reflexivity|].
      apply (select_entry_blind path w m). }
    destruct uri as [path|]; [apply Hgen|].
    destruct (activeTextEditor a) as [path|]; [apply Hgen|].
    exists m. reflexivity.
  - destruct w as [[v|] p ws ls d l]; unfold clearWorkSpaceState, updateView;
      simpl; eexists; reflexivity.
Qed.

(** *** Saving the tree *)

Lemma updateView_saves v w :
  _view w = Some v ->
  memento_get "sapling" (workspaceState (updateView w))
  = getTree (parser (updateView w)).
Proof.
  intros Hv. rewrite (updateView_attached v w Hv). simpl.
  apply memento_get_update.
Qed.

Lemma settings_commit_saves v w :
  _view w = Some v ->
  memento_get "sapling" (workspaceState (settings_commit w))
  = getTree (parser (settings_commit w)).
Proof.
  destruct w as [vw p ws ls d l]. simpl. intros ->.
  unfold settings_commit, updateView. simpl.
  destruct (validSettings d p); simpl; apply memento_get_update.
Qed.

Lemma select_entry_saves v f w :
  _view w = Some v ->
  memento_get "sapling" (workspaceState (select_entry f w))
  = getTree (parser (select_entry f w)).
Proof.
  intros Hv. unfold select_entry. apply (updateView_saves v).
  destruct w; exact Hv.
Qed.

Lemma on_settings_saves v value a w w' :
  _view w = Some v -> on_settings value a w = Some w' ->
  since w w' <> [] ->
  memento_get "sapling" (workspaceState w') = getTree (parser w').
Proof.
  intros Hv Hrun Hnew.
  destruct (on_settings_cases _ _ _ _ Hrun) as [-> | [-> | (k & x & ->)]].
  - rewrite since_refl in Hnew. contradiction.
  - apply (settings_commit_saves v). exact Hv.
  - apply (settings_commit_saves v). destruct w; exact Hv.
Qed.

Lemma settings_commit_detached w :
  _view w = None ->
  workspaceState (settings_commit w) !! "sapling"
  = workspaceState w !! "sapling".
Proof.
  destruct w as [vw p ws ls d l]. simpl. intros ->.
  unfold settings_commit, updateView. simpl.
  destruct (validSettings d p); simpl;
    apply memento_update_other; discriminate.
Qed.

Lemma on_settings_detached value a w w' :
  _view w = None -> on_settings value a w = Some w' ->
  workspaceState w' !! "sapling" = workspaceState w !! "sapling".
Proof.
  intros Hv Hrun.
  destruct (on_settings_cases _ _ _ _ Hrun) as [-> | [-> | (k & x & ->)]].
  - reflexivity.
  - apply settings_commit_detached. exact Hv.
  - rewrite settings_commit_detached by (destruct w; exact Hv).
    destruct w; reflexivity.
Qed.

(** C6 (as amended): the store is read at construction and nowhere else: a
    truthy snapshot under ['sapling'] gives the parser its entry file (the
    snapshot's [filePath]) and is restored by [setTree], without a call to
    [parse]; no event handler depends on what the store holds.  With a
    webview attached, a settings update, an entry-file selection and a
    file-saved rebuild each leave the parser's current tree under
    ['sapling'], and a node toggle always stores the tree [toggleNode]
    returned.  Without a webview attached those three leave what is stored
    under ['sapling'] as it was. *)
Theorem store_loaded_at_construction_saved_with_view :
  (forall store folders d snap root,
      store !! "sapling" = Some snap -> js_truthy snap = true ->
      workspaceRoot folders = Some root ->
      exists fp w,
        js_prop "filePath" snap = Some fp /\
        SidebarProvider_new store folders d = Some w /\
        parser w =
          setTree snap (new_parser fp (Some (initial_settings store root))) /\
        ~ In (Call CallParse) (log w) /\
        workspaceState w = store) /\
  (forall e w m, exists m',
      step e (with_store m w) = with_store m' (step e w)) /\
  (forall v w,
      _view w = Some v ->
      (forall view data a w',
          js_prop "type" data = Some (JStr "settings") \/
          js_prop "type" data = Some (JStr "onFile") ->
          onDidReceiveMessage view data a w = Some w' ->
          since w w' <> [] ->
          memento_get "sapling" (workspaceState w') = getTree (parser w')) /\
      (forall uri a,
          since w (statusButtonClicked uri a w) <> [] ->
          memento_get "sapling" (workspaceState (statusButtonClicked uri a w))
          = getTree (parser (statusButtonClicked uri a w))) /\
      (forall f,
          since w (onDidSaveTextDocument f w) <> [] ->
          memento_get "sapling" (workspaceState (onDidSaveTextDocument f w))
          = getTree (parser (onDidSaveTextDocument f w)))) /\
  (forall w view data a w' value id flag,
      js_prop "type" data = Some (JStr "onNodeToggle") ->
      js_prop "value" data = Some value ->
      js_prop "id" value = Some id ->
      js_prop "expanded" value = Some flag ->
      js_truthy (entryFile (parser w)) = true ->
      onDidReceiveMessage view data a w = Some w' ->
      memento_get "sapling" (workspaceState w')
      = snd (toggleNode id flag (parser w))) /\
  (forall w,
      _view w = None ->
      (forall view data a w',
          js_prop "type" data = Some (JStr "settings") \/
          js_prop "type" data = Some (JStr "onFile") ->
          onDidReceiveMessage view data a w = Some w' ->
          workspaceState w' !! "sapling" = workspaceState w !! "sapling") /\
      (forall uri a,
          workspaceState (statusButtonClicked uri a w) = workspaceState w) /\
      (forall f,
          workspaceState (onDidSaveTextDocument f w) = workspaceState w)).
Proof.
  split; [|split; [|split; [|split]]].
  - intros store folders d snap root Hsnap Htruthy Hroot.
    destruct (SidebarProvider_new_restores store folders d snap root
                Hsnap Htruthy Hroot) as (fp & Hfp & Hnew).
    exists fp. eexists. split; [exact Hfp|]. split; [exact Hnew|].
    simpl. split; [reflexivity|]. split; [|reflexivity].
    intros [Hin | [Hin | []]]; discriminate.
  - intros e w m. apply step_blind.
  - intros v w Hv. split; [|split].
    + intros view data a w' [Hty | Hty] Hrun Hnew.
      * destruct (message_settings view data a w Hty) as (value & _ & Heq).
        rewrite Heq in Hrun. eapply on_settings_saves; eassumption.
      * rewrite (message_onFile view data a w Hty) in Hrun.
        destruct (on_file_cases _ _ _ Hrun) as [-> | (f & _ & ->)].
        -- rewrite since_refl in Hnew. contradiction.
        -- apply (select_entry_saves v). exact Hv.
    + intros uri a Hnew.
      destruct (statusButtonClicked_cases uri a w) as [Heq | (f & _ & Heq)];
        rewrite Heq in *.
      * rewrite since_refl in Hnew. contradiction.
      * apply (select_entry_saves v). exact Hv.
    + intros f Hnew.
      destruct (js_truthy (entryFile (parser w))) eqn:Hentry.
      * rewrite (onDidSaveTextDocument_routed _ _ Hentry).
        apply (updateView_saves v). destruct w; exact Hv.
      * rewrite (onDidSaveTextDocument_ignored _ _ Hentry) in Hnew.
        rewrite since_refl in Hnew. contradiction.
  - intros w view data a w' value id flag Hty Hval Hid Hflag Hentry Hrun.
    destruct (message_onNodeToggle view data a w Hty) as (value' & Hval' & Heq).
    assert (value' = value) as -> by congruence.
    rewrite Heq, (on_node_toggle_routed _ _ _ _ Hentry Hid Hflag) in Hrun.
    injection Hrun as <-. simpl. apply memento_get_update.
  - intros w Hv. split; [|split].
    + intros view data a w' [Hty | Hty] Hrun.
      * destruct (message_settings view data a w Hty) as (value & _ & Heq).
        rewrite Heq in Hrun. eapply on_settings_detached; eassumption.
      * rewrite (message_onFile view data a w Hty) in Hrun.
        destruct (on_file_cases _ _ _ Hrun) as [-> | (f & _ & ->)];
          [reflexivity|].
        rewrite select_entry_store, Hv. reflexivity.
    + intros uri a.
      destruct (statusButtonClicked_cases uri a w) as [-> | (f & _ & ->)];
        [reflexivity|].
      rewrite select_entry_store, Hv. reflexivity.
    + intros f. unfold onDidSaveTextDocument.
      destruct (negb _); [reflexivity|].
      rewrite updateView_detached by (destruct w; exact Hv).
      destruct w; reflexivity.
Qed.

End HostProperties.

(** * Properties of the modelled parser *)

Module SpecParserProperties.

Import SpecParser.

Lemma Node_nested_ind (Q : Node -> Prop) :
  (forall i f nm cs ex m, Forall Q cs -> Q (mkNode i f nm cs ex m)) ->
  forall n, Q n.
Proof.
  intros Hstep. fix IH 1. intros [i f nm cs ex m]. apply Hstep.
  induction cs as [|c cs IHcs]; constructor; [apply IH | exact IHcs].
Qed.

Lemma build_children_is_Some rec imps next :
  (forall q k, is_Some (rec q k)) -> is_Some (build_children rec imps next).
Proof.
  intros Hrec. revert next.
  induction imps as [|[q| |s e] rest IH]; intros next; simpl.
  - eexists. reflexivity.
  - destruct (Hrec q next) as [[c k] ->]. simpl.
    destruct (IH k) as [[cs k'] ->]. simpl. eexists. reflexivity.
  - apply IH.
  - destruct (IH (S next)) as [[cs k'] ->]. simpl. eexists. reflexivity.
Qed.

Lemma build_node_enough_fuel fuel d onPath root f next :
  size (dom (files d) ∖ onPath) < fuel ->
  is_Some (build_node fuel d onPath root f next).
Proof.
  revert onPath root f next.
  induction fuel as [|fuel IH]; intros onPath root f next Hfuel; [lia|].
  simpl. destruct (decide (f ∈ onPath)) as [Hin|Hout]; [eexists; reflexivity|].
  destruct (files d !! f) as [[|a]|] eqn:Hf; try (eexists; reflexivity).
  assert (size (dom (files d) ∖ ({[f]} ∪ onPath)) < fuel) as Hless.
  { assert (f ∈ dom (files d)) as Hdom by (apply elem_of_dom; eauto).
    assert (dom (files d) ∖ onPath
            = {[f]} ∪ dom (files d) ∖ ({[f]} ∪ onPath)) as Heq.
    { apply set_eq. intros x. destruct (decide (x = f)); set_solver. }
    rewrite Heq, size_union, size_singleton in Hfuel by set_solver. lia. }
  destruct (build_children_is_Some
              (build_node fuel d ({[f]} ∪ onPath) false) (imports a) (S next))
    as [[cs k] ->]; [intros q k; apply IH; exact Hless|].
  simpl. eexists. reflexivity.
Qed.

Lemma build_children_built d rec anc imps next cs next' :
  (forall q k c k', rec q k = Some (c, k') -> built d anc false (Resolved q) c) ->
  build_children rec imps next = Some (cs, next') ->
  Forall2 (built d anc false) (shown imps) cs.
Proof.
  intros Hrec. revert next cs next'.
  induction imps as [|[q| |s e] rest IH]; intros next cs next' Hrun;
    simpl in Hrun.
  - injection Hrun as <- <-. constructor.
  - destruct (rec q next) as [[c k]|] eqn:Hc; [|discriminate]. simpl in Hrun.
    destruct (build_children rec rest k) as [[cs0 k0]|] eqn:Hcs;
      [|discriminate].
    simpl in Hrun. injection Hrun as <- <-. simpl.
    constructor; [eapply Hrec; eassumption | eapply IH; eassumption].
  - simpl. eapply IH. eassumption.
  - destruct (build_children rec rest (S next)) as [[cs0 k0]|] eqn:Hcs;
      [|discriminate].
    simpl in Hrun. injection Hrun as <- <-. simpl.
    constructor; [apply built_unresolved | eapply IH; eassumption].
Qed.

Lemma build_node_built fuel d onPath root f next n next' :
  build_node fuel d onPath root f next = Some (n, next') ->
  built d onPath root (Resolved f) n.
Proof.
  revert onPath root f next n next'.
  induction fuel as [|fuel IH]; intros onPath root f next n next' Hrun;
    simpl in Hrun;
    (destruct (decide (f ∈ onPath)) as [Hin|Hout];
     [injection Hrun as <- <-; apply built_cycle; exact Hin|]);
    (destruct (files d !! f) as [[|a]|] eqn:Hf;
     [injection Hrun as <- <-; apply built_unparseable; assumption
     | | injection Hrun as <- <-; apply built_missing; assumption]).
  - discriminate.
  - destruct (build_children _ (imports a) (S next)) as [[cs k]|] eqn:Hcs;
      [|discriminate].
    simpl in Hrun. injection Hrun as <- <-.
    apply built_plain; [exact Hout|exact Hf|].
    eapply build_children_built; [|exact Hcs].
    intros q k0 c k' Hc. eapply IH. exact Hc.
Qed.

(** C7: on every disk, cyclic or not, [build] returns a tree: the fuel it
    is given always suffices.  The tree is the one the depth-first
    traversal with the cycle rule describes: below the set of files on
    the current path, a file already on that path becomes a cycle leaf
    without children and is not descended into again. *)
Theorem build_terminates_with_cycle_leaves d entry next :
  exists root next',
    build d entry next = Some (root, next') /\
    built d ∅ true (Resolved entry) root.
Proof.
  unfold build, enough_fuel.
  destruct (build_node_enough_fuel (S (size (dom (files d)))) d ∅ true
              entry next) as [[root next'] Hrun].
  { assert (dom (files d) ∖ ∅ = dom (files d)) as -> by set_solver. lia. }
  exists root, next'. split; [exact Hrun|].
  eapply build_node_built. exact Hrun.
Qed.

(** A file already on the path is never expanded. *)
Lemma built_on_path d anc r f n :
  built d anc r (Resolved f) n -> f ∈ anc ->
  mark n = CycleLeaf /\ children n = [] /\ filePath n = f.
Proof.
  intros Hb Hin. inversion Hb; subst; try contradiction.
  split; [reflexivity|]. split; reflexivity.
Qed.

(** A imports B imports A: the second occurrence of A is a cycle leaf. *)
Lemma two_file_cycle d A B aA aB next :
  A <> B ->
  files d !! A = Some (Parsed aA) -> imports aA = [Resolved B] ->
  files d !! B = Some (Parsed aB) -> imports aB = [Resolved A] ->
  exists i j k nm next',
    build d A next =
    Some (mkNode i A (node_name A aA)
            [mkNode j B (node_name B aB)
               [mkNode k A nm [] false CycleLeaf] false Plain]
            true Plain, next').
Proof.
  intros Hne HA HiA HB HiB.
  destruct (build_node_enough_fuel (enough_fuel d) d ∅ true A next)
    as [[root next'] Hrun].
  { unfold enough_fuel.
    assert (dom (files d) ∖ ∅ = dom (files d)) as -> by set_solver. lia. }
  pose proof (build_node_built _ _ _ _ _ _ _ _ Hrun) as Hroot.
  unfold build. rewrite Hrun.
  inversion Hroot as [| | | |anc r f a i cs Hout Hf Hcs]; subst;
    try congruence; try (exfalso; set_solver).
  assert (a = aA) as -> by congruence. rewrite HiA in Hcs. simpl in Hcs.
  inversion Hcs as [|imp c imps cs' Hc Hrest]; subst.
  inversion Hrest; subst.
  inversion Hc as [| | | |anc r f a j cs Hout' Hf' Hcs']; subst;
    try congruence; try (exfalso; set_solver).
  assert (a = aB) as -> by congruence. rewrite HiB in Hcs'. simpl in Hcs'.
  inversion Hcs' as [|imp c' imps cs'' Hc' Hrest']; subst.
  inversion Hrest'; subst.
  inversion Hc'; subst; try (exfalso; set_solver).
  eexists _, _, _, _, _. reflexivity.
Qed.

Lemma subtree_is_build_node d onPath root f next :
  build_node (enough_fuel d) d onPath root f next
  = Some (subtree d onPath root f next).
Proof.
  unfold subtree.
  destruct (build_node_enough_fuel (enough_fuel d) d onPath root f next)
    as [r ->]; [|reflexivity].
  unfold enough_fuel.
  pose proof (subseteq_size (dom (files d) ∖ onPath) (dom (files d))) as Hle.
  assert (dom (files d) ∖ onPath ⊆ dom (files d)) by set_solver.
  specialize (Hle ltac:(assumption)). lia.
Qed.

(** *** toggle *)

Lemma toggle_flags target flag n :
  flags (toggle target flag n) = map (set_flag target flag) (flags n).
Proof.
  induction n as [i f nm cs ex m IH] using Node_nested_ind. simpl.
  unfold set_flag at 1. simpl. f_equal.
  induction IH as [|c cs Hc _ IHcs]; simpl; [reflexivity|].
  rewrite map_app, Hc, IHcs. reflexivity.
Qed.

Lemma toggle_collapse target flag n :
  collapse (toggle target flag n) = collapse n.
Proof.
  induction n as [i f nm cs ex m IH] using Node_nested_ind. simpl. f_equal.
  induction IH as [|c cs Hc _ IHcs]; simpl; [reflexivity|].
  rewrite Hc, IHcs. reflexivity.
Qed.

Lemma toggle_missing target flag n :
  target ∉ (flags n).*1 -> toggle target flag n = n.
Proof.
  induction n as [i f nm cs ex m IH] using Node_nested_ind. simpl.
  intros Hout. apply not_elem_of_cons in Hout as [Hne Hout].
  destruct (Nat.eqb_spec i target) as [->|_]; [contradiction|]. f_equal.
  induction IH as [|c cs Hc _ IHcs]; simpl in *; [reflexivity|].
  rewrite fmap_app in Hout. apply not_elem_of_app in Hout as [Hc' Hcs'].
  rewrite Hc, IHcs by assumption. reflexivity.
Qed.

(** *** snapshots *)

Lemma decode_mark_encode m :
  decode_mark (encode_error m) (JBool (is_cycle m)) = Some m.
Proof. destruct m as [|[]|]; reflexivity. Qed.

Lemma decode_encode n : decode_node (encode_node n) = Some n.
Proof.
  induction n as [i f nm cs ex m IH] using Node_nested_ind.
  cbn -[decode_mark Z.leb Z.of_nat Z.to_nat].
  assert ((0 <=? Z.of_nat i)%Z = true) as -> by (apply Z.leb_le; lia).
  rewrite Nat2Z.id, decode_mark_encode.
  assert ((fix all (l' : list JsVal) : option (list Node) :=
             match l' with
             | [] => Some []
             | c :: t => n ← decode_node c; ns ← all t; Some (n :: ns)
             end) (map encode_node cs) = Some cs) as Hall.
  { induction IH as [|c cs Hc _ IHcs]; simpl; [reflexivity|].
    rewrite Hc. simpl. rewrite IHcs. reflexivity. }
  simpl in Hall |- *. rewrite Hall. reflexivity.
Qed.

Lemma toggle_node_typed i flag p :
  toggle_node (JNum (Z.of_nat i)) (JBool flag) p =
  (mkParser (p_entryFile p) (p_settings p) (toggle i flag <$> p_tree p)
            (p_nextId p),
   snapshot (mkParser (p_entryFile p) (p_settings p)
                      (toggle i flag <$> p_tree p) (p_nextId p))).
Proof.
  unfold toggle_node. destruct p as [e st [r|] k]; simpl; [|reflexivity].
  assert ((0 <=? Z.of_nat i)%Z = true) as -> by (apply Z.leb_le; lia).
  rewrite Nat2Z.id. reflexivity.
Qed.

Lemma restore_snapshot p q : p_tree (restore (snapshot p) q) = p_tree p.
Proof.
  unfold restore, snapshot. destruct (p_tree p) as [r|]; simpl; [|reflexivity].
  rewrite decode_encode. reflexivity.
Qed.

Lemma restore_entry v q : p_entryFile (restore v q) = p_entryFile q.
Proof. unfold restore. destruct (_ ≫= _); reflexivity. Qed.

(** What the modelled parser persists, the host restores: construction
    from a store that holds a snapshot gives a parser with the snapshot's
    entry file and tree. *)
Lemma persisted_snapshot_restores store folders d p root r :
  p_tree p = Some r ->
  store !! "sapling" = Some (snapshot p) ->
  workspaceRoot folders = Some root ->
  exists w : @World Parser,
    SidebarProvider_new store folders d = Some w /\
    entryFile (parser w) = p_entryFile p /\
    p_tree (parser w) = Some r.
Proof.
  intros Htree Hsnap Hroot.
  assert (js_truthy (snapshot p) = true) as Htruthy
      by (unfold snapshot; rewrite Htree; reflexivity).
  destruct (SidebarProvider_new_restores store folders d (snapshot p) root
              Hsnap Htruthy Hroot) as (fp & Hfp & Hnew).
  eexists. split; [exact Hnew|]. simpl.
  change (setTree (snapshot p)) with (restore (snapshot p)).
  change (new_parser fp) with (make fp).
  split.
  - change (p_entryFile
              (restore (snapshot p)
                 (make fp (Some (initial_settings store root))))
            = p_entryFile p).
    rewrite restore_entry. simpl.
    unfold snapshot in Hfp. rewrite Htree in Hfp. simpl in Hfp. congruence.
  - rewrite restore_snapshot. exact Htree.
Qed.

(** After [clearWorkSpaceState] the modelled parser has the empty entry
    file, default settings and no tree, and the store has neither key. *)
Lemma cleared_parser_is_empty (w : @World Parser) :
  parser (clearWorkSpaceState w) = make (JStr "") None /\
  entryFile (parser (clearWorkSpaceState w)) = JStr "" /\
  getTree (parser (clearWorkSpaceState w)) = JUndefined /\
  workspaceState (clearWorkSpaceState w) !! "sapling" = None /\
  workspaceState (clearWorkSpaceState w) !! "saplingSettings" = None.
Proof.
  destruct w as [[v|] p ws ls d l]; unfold clearWorkSpaceState, updateView;
    simpl; unfold memento_update; simpl;
    rewrite ?lookup_delete_eq, ?lookup_delete_ne by done;
    rewrite ?lookup_delete_eq; repeat split; reflexivity.
Qed.

(** C3 (as amended): a toggle message [{id, expanded}] that finds a
    non-empty entry file in the parser is passed to [toggleNode], and the
    snapshot [toggleNode] returned, which is the parser's tree afterwards,
    is what the store then holds under ['sapling']; a toggle message that
    finds the entry file empty is dropped.  For an id and a flag
    of the types the tree uses, the parser's tree afterwards is the old
    one toggled; toggling sets the flag of the node with that id, keeps
    every other flag and the rest of the tree, and changes nothing when no
    node has the id. *)
Theorem toggle_routed_and_persisted (w : @World Parser) view data a value
  idv flagv :
  js_prop "type" data = Some (JStr "onNodeToggle") ->
  js_prop "value" data = Some value ->
  js_prop "id" value = Some idv ->
  js_prop "expanded" value = Some flagv ->
  (js_truthy (entryFile (parser w)) = false ->
   onDidReceiveMessage view data a w = Some w) /\
  (js_truthy (entryFile (parser w)) = true ->
   exists w',
     onDidReceiveMessage view data a w = Some w' /\
     parser w' = fst (toggleNode idv flagv (parser w)) /\
     since w w' =
       [Call (CallToggleNode idv flagv);
        StateUpdate "sapling" (getTree (parser w'))] /\
     memento_get "sapling" (workspaceState w') = getTree (parser w') /\
     (forall i flag,
         idv = JNum (Z.of_nat i) -> flagv = JBool flag ->
         p_tree (parser w') = toggle i flag <$> p_tree (parser w)) /\
     (forall i flag r,
         flags (toggle i flag r) = map (set_flag i flag) (flags r) /\
         collapse (toggle i flag r) = collapse r /\
         (i ∉ (flags r).*1 -> toggle i flag r = r))).
Proof.
  intros Hty Hval Hid Hflag.
  destruct (message_onNodeToggle view data a w Hty) as (value' & Hval' & ->).
  assert (value' = value) as -> by congruence.
  split; [apply on_node_toggle_ignored|].
  intros Hentry.
  rewrite (on_node_toggle_routed _ _ _ _ Hentry Hid Hflag).
  change (@toggleNode Parser spec_parser) with toggle_node.
  eexists. split; [reflexivity|]. cbn [parser workspaceState log].
  split; [reflexivity|].
  split; [apply since_app; reflexivity|].
  split; [apply memento_get_update|].
  split.
  - intros i flag -> ->. rewrite toggle_node_typed. reflexivity.
  - intros i flag r. split; [apply toggle_flags|].
    split; [apply toggle_collapse | apply toggle_missing].
Qed.

End SpecParserProperties.

(** * The scenarios, run *)

Module ScenarioFacts.

Import SpecParser Scenarios.

Lemma fresh_is_constructed :
  SidebarProvider_new ∅ (Some ["/ws"]) disk_cycle = Some fresh.
Proof. vm_compute. reflexivity. Qed.

Lemma fresh_reachable : Reachable fresh.
Proof. eapply reach_new. exact fresh_is_constructed. Qed.

(** Choosing the entry file from the panel, with the picker answering. *)
Example onFile_sets_entry_file :
  (fun w => (entryFile (parser w), length (since attached w)))
    <$> onDidReceiveMessage 1 (JObj [("type", JStr "onFile")])
          (picking "/A.tsx") attached
  = Some (JStr "/A.tsx", 6).
Proof. vm_compute. reflexivity. Qed.

(** A cancelled picker leaves everything as it was. *)
Example onFile_cancelled :
  onDidReceiveMessage 1 (JObj [("type", JStr "onFile")]) quiet attached
  = Some attached.
Proof. vm_compute. reflexivity. Qed.

(** A message without a payload makes the toggle handler throw once an
    entry file is set. *)
Example toggle_without_payload_throws :
  onDidReceiveMessage 1 (JObj [("type", JStr "onNodeToggle")]) quiet generated
  = None.
Proof. vm_compute. reflexivity. Qed.

(** The builder on two files importing each other: the second occurrence
    of [/A.tsx] is a cycle leaf. *)
Example build_two_file_cycle :
  fst <$> build disk_cycle "/A.tsx" 0 =
  Some (mkNode 0 "/A.tsx" "A"
          [mkNode 1 "/B.tsx" "B"
             [mkNode 2 "/A.tsx" "A.tsx" [] false CycleLeaf] false Plain]
          true Plain).
Proof. vm_compute. reflexivity. Qed.

(** C1, counterexample: a toggle of node 1 changes the parser's tree, and
    the handler posts neither the tree nor the settings. *)
Lemma node_toggle_posts_nothing :
  onDidReceiveMessage 1 toggle_message quiet generated = Some toggled /\
  p_tree (parser toggled) <> p_tree (parser generated) /\
  ~ emits_view_data 1 generated toggled.
Proof.
  split; [vm_compute; reflexivity|]. split.
  - intros Heq. vm_compute in Heq. discriminate.
  - intros [pre Hpre]. vm_compute in Hpre.
    destruct pre as [|e1 [|e2 [|e3 pre]]]; simpl in Hpre; discriminate.
Qed.

(** C2, counterexample: with a webview attached and no entry file chosen,
    a save event leaves the world as it is; [updateTree] is not called. *)
Lemma save_ignored_without_entry_file :
  step (DidSaveTextDocument "/A.tsx") attached = attached /\
  ~ In (Call (CallUpdateTree "/A.tsx"))
       (log (step (DidSaveTextDocument "/A.tsx") attached)).
Proof.
  split; [vm_compute; reflexivity|].
  vm_compute. intros [Heq | []]. discriminate.
Qed.

(** C3, counterexample: with no entry file chosen a toggle event is
    dropped: no call to [toggleNode], nothing stored. *)
Lemma toggle_ignored_without_entry_file :
  step (DidReceiveMessage 1 toggle_message quiet) attached = attached /\
  since attached (step (DidReceiveMessage 1 toggle_message quiet) attached)
  = [].
Proof. split; vm_compute; reflexivity. Qed.

(** C4, counterexample: a snapshot that carries the entry file under
    [entryFilePath] is restored with an undefined entry file: the
    constructor of the parser is called with undefined. *)
Lemma entryFilePath_not_read :
  (fun w => entryFile (parser w))
    <$> SidebarProvider_new {["sapling" := spec_shaped_snapshot]} None
          disk_cycle
  = Some JUndefined /\
  log <$> SidebarProvider_new {["sapling" := spec_shaped_snapshot]} None
            disk_cycle
  = Some [Call (CallNew JUndefined (Some (defaultSettings "")));
          Call (CallSetTree spec_shaped_snapshot)].
Proof. split; vm_compute; reflexivity. Qed.

(** C6, counterexample: generating a tree before a webview is attached
    changes the parser's tree and writes nothing under ['sapling']. *)
Lemma tree_not_saved_without_view :
  p_tree (parser generated_detached) <> p_tree (parser fresh) /\
  workspaceState generated_detached !! "sapling" = None.
Proof.
  split; [|vm_compute; reflexivity].
  intros Heq. vm_compute in Heq. discriminate.
Qed.

(** C1, witness: the command on [/A.tsx] with webview 1 attached. *)
Lemma mutation_emits_view_data_witness :
  emits_view_data 1 attached (statusButtonClicked (Some "/A.tsx") quiet attached).
Proof.
  destruct (mutation_emits_view_data 1 attached eq_refl)
    as (_ & Hcommand & _).
  apply (Hcommand (Some "/A.tsx") quiet).
  vm_compute. discriminate.
Defined.

(** C2, witness: saving [/B.tsx] once a tree for [/A.tsx] exists, and
    before an entry file was chosen. *)
Lemma save_routed_to_updateTree_witness :
  parser (onDidSaveTextDocument "/B.tsx" generated)
  = updateTree (disk generated) "/B.tsx" (parser generated) /\
  onDidSaveTextDocument "/B.tsx" attached = attached.
Proof.
  split.
  - apply (proj1 (save_routed_to_updateTree "/B.tsx" generated)).
    vm_compute. reflexivity.
  - apply (proj2 (save_routed_to_updateTree "/B.tsx" attached)).
    vm_compute. reflexivity.
Defined.

(** C3, witness: expanding node 1 before an entry file was chosen, and
    in the generated tree. *)
Lemma toggle_routed_and_persisted_witness :
  onDidReceiveMessage 1 toggle_message quiet attached = Some attached /\
  exists w',
    onDidReceiveMessage 1 toggle_message quiet generated = Some w' /\
    p_tree (parser w') = toggle 1 true <$> p_tree (parser generated) /\
    memento_get "sapling" (workspaceState w') = getTree (parser w').
Proof.
  split.
  - apply (proj1 (SpecParserProperties.toggle_routed_and_persisted
                    attached 1 toggle_message quiet toggle_value
                    (JNum 1) (JBool true) eq_refl eq_refl eq_refl eq_refl)).
    vm_compute. reflexivity.
  - destruct (proj2 (SpecParserProperties.toggle_routed_and_persisted
                       generated 1 toggle_message quiet toggle_value
                       (JNum 1) (JBool true) eq_refl eq_refl eq_refl eq_refl))
      as (w' & Hrun & _ & _ & Hstore & Htyped & _).
    + vm_compute. reflexivity.
    + exists w'. split; [exact Hrun|]. split; [|exact Hstore].
      apply (Htyped 1 true); reflexivity.
Defined.

(** C4, witness: restoring a snapshot the parser handed out. *)
Lemma snapshot_entry_read_from_filePath_witness :
  exists w,
    SidebarProvider_new {["sapling" := stored_snapshot]} None disk_cycle
    = Some w /\
    head (log w) = Some (Call (CallNew (JStr "/A.tsx")
                                 (Some (defaultSettings "")))).
Proof.
  destruct (snapshot_entry_read_from_filePath
              {["sapling" := stored_snapshot]} None disk_cycle
              stored_snapshot "")
    as (fp & w & _ & Hnew & _).
  - vm_compute. reflexivity.
  - reflexivity.
  - reflexivity.
  - exists w. split; [exact Hnew|].
    vm_compute in Hnew. injection Hnew as <-. reflexivity.
Defined.

(** C6, witness: the command on [/A.tsx] with webview 1 attached, and
    with none. *)
Lemma store_loaded_at_construction_saved_with_view_witness :
  memento_get "sapling"
    (workspaceState (statusButtonClicked (Some "/A.tsx") quiet attached))
  = getTree (parser (statusButtonClicked (Some "/A.tsx") quiet attached)) /\
  workspaceState (statusButtonClicked (Some "/A.tsx") quiet fresh)
  = workspaceState fresh.
Proof.
  destruct (@store_loaded_at_construction_saved_with_view Parser _)
    as (_ & _ & Hsave & _ & Hskip).
  split.
  - destruct (Hsave 1 attached eq_refl) as (_ & Hcommand & _).
    apply (Hcommand (Some "/A.tsx") quiet).
    vm_compute. discriminate.
  - destruct (Hskip fresh eq_refl) as (_ & Hcommand & _).
    apply (Hcommand (Some "/A.tsx") quiet).
Defined.

(** C9, witness: the freshly constructed provider. *)
Lemma updateView_without_view_witness :
  updateView fresh = fresh /\
  workspaceState (step (StatusButtonClicked (Some "/A.tsx") quiet) fresh)
  = workspaceState fresh.
Proof.
  destruct (updateView_without_view fresh eq_refl) as [Hnoop Hframe].
  split; [exact Hnoop|].
  apply (Hframe fresh_reachable (StatusButtonClicked (Some "/A.tsx") quiet)).
  discriminate.
Defined.

(** C10, witness: switching [useAlias] on without any config file. *)
Lemma settings_parse_iff_valid_witness :
  (In (Call CallParse) (since generated aliased) <->
   In (Call (CallValidSettings true)) (since generated aliased)) /\
  In (StateUpdate "saplingSettings"
        (settings (updateSettings "useAlias" (JBool true) (parser generated))))
     (since generated aliased) /\
  In (PostMessage 1 "settings-data" (settings (parser aliased)))
     (since generated aliased).
Proof.
  assert (on_settings (JArr [JStr "useAlias"; JBool true]) quiet generated
          = Some aliased) as Hrun by (vm_compute; reflexivity).
  destruct (settings_parse_iff_valid _ _ _ _ Hrun) as [Hiff Hupdated].
  split; [exact Hiff|].
  destruct (Hupdated "useAlias" (JBool true))
    as (_ & _ & Hstored & _ & Hposted).
  - vm_compute. left. reflexivity.
  - split; [exact Hstored|]. apply Hposted. reflexivity.
Defined.

End ScenarioFacts.

(** * Further properties of the host, for every parser *)

Section HostObservationProperties.
Context {P : Type} {parser_ops : SaplingParser P}.
Implicit Types (w : @World P) (v : View) (a : Ambient).

Lemma js_is_str_true x s : js_is_str x s = true -> x = JStr s.
Proof.
  destruct x; simpl; try discriminate. intros Heq.
  apply String.eqb_eq in Heq. congruence.
Qed.

Lemma on_node_toggle_cases value w w' :
  on_node_toggle value w = Some w' ->
  w' = w \/
  exists id flag,
    js_truthy (entryFile (parser w)) = true /\
    js_prop "id" value = Some id /\ js_prop "expanded" value = Some flag /\
    w' = state_update "sapling" (fst (call_toggleNode id flag w))
                      (snd (call_toggleNode id flag w)).
Proof.
  unfold on_node_toggle. intros Hrun.
  destruct (js_truthy (entryFile (parser w))) eqn:Hentry; simpl in Hrun;
    [|left; congruence].
  destruct (js_prop "id" value) as [id|]; [|discriminate].
  destruct (js_prop "expanded" value) as [flag|]; [|discriminate].
  simpl in Hrun. right. exists id, flag. repeat split; try reflexivity.
  destruct (call_toggleNode id flag w) as [tree w1]. simpl. congruence.
Qed.

(** Every normal return of the message listener is a result of the case
    the message type selects. *)
Lemma onDidReceiveMessage_result view data a w w' type :
  js_prop "type" data = Some type ->
  onDidReceiveMessage view data a w = Some w' ->
  message_result view w (kind_of type) w'.
Proof.
  unfold onDidReceiveMessage, kind_of. intros Hty Hrun. rewrite Hty in Hrun.
  destruct (js_prop "value" data) as [value|]; [|discriminate].
  simpl in Hrun.
  destruct (js_is_str type "settings").
  { destruct (on_settings_cases _ _ _ _ Hrun) as [-> | [-> | (k & x & ->)]];
      constructor. }
  destruct (js_is_str type "onFile").
  { destruct (on_file_cases _ _ _ Hrun) as [-> | (f & Hf & ->)];
      constructor; assumption. }
  destruct (js_is_str type "onViewFile").
  { destruct (negb (js_truthy value)); injection Hrun as <-; constructor. }
  destruct (js_is_str type "onSaplingVisible").
  { injection Hrun as <-. constructor. }
  destruct (js_is_str type "onPreferencesAcquire").
  { injection Hrun as <-. constructor. }
  destruct (js_is_str type "onNodeToggle").
  { destruct (on_node_toggle_cases _ _ _ Hrun)
      as [-> | (id & flag & Hentry & _ & _ & ->)];
      constructor; assumption. }
  destruct (js_is_str type "onBoldCheck").
  { injection Hrun as <-. unfold on_bold_check.
    destruct (_view w) as [v|] eqn:Hv; [|constructor].
    destruct (activeTextEditor a) as [f|]; [|constructor].
    destruct (String.eqb_spec f ""); [constructor|].
    apply (result_bold view w v f); assumption. }
  injection Hrun as <-. constructor.
Qed.

(** *** The store, effect by effect *)

Lemma updateView_store w :
  workspaceState (updateView w) =
  match _view w with
  | Some _ => memento_update "sapling" (getTree (parser w)) (workspaceState w)
  | None => workspaceState w
  end.
Proof. destruct w as [[v|] p ws ls d l]; reflexivity. Qed.

Lemma settings_commit_workspaceState w :
  workspaceState (settings_commit w) =
  match _view w with
  | Some _ =>
      memento_update "sapling" (getTree (parser (settings_commit w)))
        (memento_update "saplingSettings" (settings (parser w))
                        (workspaceState w))
  | None =>
      memento_update "saplingSettings" (settings (parser w)) (workspaceState w)
  end.
Proof.
  destruct w as [[v|] p ws ls d l]; unfold settings_commit, updateView; simpl;
    destruct (validSettings d p); reflexivity.
Qed.

Lemma toggle_result_world id flag w :
  state_update "sapling" (fst (call_toggleNode id flag w))
               (snd (call_toggleNode id flag w))
  = mkWorld (_view w) (fst (toggleNode id flag (parser w)))
      (memento_update "sapling" (snd (toggleNode id flag (parser w)))
                      (workspaceState w))
      (listeners w) (disk w)
      (log w ++ [Call (CallToggleNode id flag);
                 StateUpdate "sapling" (snd (toggleNode id flag (parser w)))]).
Proof.
  destruct w as [vw p ws ls d l]. simpl.
  destruct (toggleNode id flag p) as [p' tree]. simpl.
  rewrite <- app_assoc. reflexivity.
Qed.

(** A run of the message listener writes no key but ['sapling'] and
    ['saplingSettings'], and the latter in the ['settings'] case only. *)
Lemma message_result_store view w kind w' key :
  message_result view w kind w' ->
  key <> "sapling" ->
  key <> "saplingSettings" \/ kind <> KSettings ->
  workspaceState w' !! key = workspaceState w !! key.
Proof.
  intros Hres Htree Hsettings.
  destruct Hres as [kind| |k x|f Hf|x| |x|id flag Hentry|v f Hv Hf].
  - reflexivity.
  - destruct Hsettings as [Hne|Hne]; [|contradiction].
    rewrite settings_commit_workspaceState.
    destruct (_view w); rewrite ?memento_update_other by congruence;
      reflexivity.
  - destruct Hsettings as [Hne|Hne]; [|contradiction].
    rewrite settings_commit_workspaceState.
    destruct w as [vw p ws ls d l]; simpl.
    destruct vw; rewrite ?memento_update_other by congruence; reflexivity.
  - rewrite select_entry_store.
    destruct (_view w); rewrite ?memento_update_other by congruence;
      reflexivity.
  - destruct w; reflexivity.
  - rewrite updateView_store.
    destruct (_view w); rewrite ?memento_update_other by congruence;
      reflexivity.
  - destruct w; reflexivity.
  - rewrite toggle_result_world. simpl.
    rewrite memento_update_other by congruence. reflexivity.
  - destruct w; reflexivity.
Qed.

(** *** Messages that are dropped *)

Lemma none_of_cons s names x :
  none_of (s :: names) x = negb (js_is_str x s) && none_of names x.
Proof. reflexivity. Qed.

(** X1: a picker that is cancelled, or that answers with an empty path,
    ends the handler at once: for ['onFile'] and for the settings fields
    that ask for a path (['appRoot'], ['webpackConfig'], ['tsConfig']) the
    message changes nothing, without any effect. *)
Theorem cancelled_picker_changes_nothing view data a w value :
  js_prop "type" data = Some (JStr "onFile") \/
  (js_prop "type" data = Some (JStr "settings") /\
   js_prop "value" data = Some value /\
   none_of ["appRoot"; "webpackConfig"; "tsConfig"] (js_index value 0)
   = false) ->
  openDialog a = None \/ (exists rest, openDialog a = Some ("" :: rest)) ->
  onDidReceiveMessage view data a w = Some w.
Proof.
  intros Hcase Hdialog.
  assert (forall many folders,
             selectFile many folders (openDialog a) = Some None \/
             selectFile many folders (openDialog a) = Some (Some ""))
    as Hpick.
  { intros many folders. destruct Hdialog as [-> | [rest ->]];
      [left|right]; reflexivity. }
  destruct Hcase as [Hty | (Hty & Hval & Hkey)].
  - rewrite (message_onFile view data a w Hty). unfold on_file.
    destruct (Hpick false false) as [-> | ->]; reflexivity.
  - destruct (message_settings view data a w Hty) as (value' & Hval' & ->).
    assert (value' = value) as -> by congruence.
    unfold on_settings. destruct (negb (js_truthy value)); [reflexivity|].
    unfold none_of in Hkey. simpl in Hkey.
    destruct (js_is_str (js_index value 0) "appRoot") eqn:Hroot.
    { rewrite (js_is_str_true _ _ Hroot). simpl.
      destruct (Hpick false true) as [-> | ->]; reflexivity. }
    destruct (js_is_str (js_index value 0) "webpackConfig") eqn:Hwp.
    { rewrite (js_is_str_true _ _ Hwp). simpl.
      destruct (Hpick false false) as [-> | ->]; reflexivity. }
    destruct (js_is_str (js_index value 0) "tsConfig") eqn:Hts;
      [|discriminate].
    rewrite (js_is_str_true _ _ Hts). simpl.
    destruct (Hpick false false) as [-> | ->]; reflexivity.
Qed.

(** X2: a message whose type is none of the seven cases of the switch
    changes nothing; nor does a ['settings'] or an ['onViewFile'] message
    whose value is falsy. *)
Theorem unhandled_message_changes_nothing view data a w type value :
  js_prop "type" data = Some type ->
  js_prop "value" data = Some value ->
  none_of known_types type = true \/
  (js_truthy value = false /\
   (type = JStr "settings" \/ type = JStr "onViewFile")) ->
  onDidReceiveMessage view data a w = Some w.
Proof.
  intros Hty Hval Hcase. unfold onDidReceiveMessage.
  rewrite Hty, Hval. simpl.
  destruct Hcase as [Hnone | (Hfalsy & [-> | ->])].
  - unfold none_of, known_types in Hnone. simpl in Hnone.
    repeat (apply andb_prop in Hnone as [Hhd Hnone];
            apply negb_true_iff in Hhd; rewrite Hhd; clear Hhd).
    reflexivity.
  - simpl. unfold on_settings. rewrite Hfalsy. reflexivity.
  - simpl. rewrite Hfalsy. reflexivity.
Qed.

(** X3: an ['onNodeToggle'] message whose value is undefined or null is
    dropped while no entry file is set; once one is set, reading [id] of
    the value throws, before [toggleNode] is called or anything is
    stored. *)
Theorem toggle_without_payload view data a w value :
  js_prop "type" data = Some (JStr "onNodeToggle") ->
  js_prop "value" data = Some value ->
  value = JUndefined \/ value = JNull ->
  onDidReceiveMessage view data a w =
  if js_truthy (entryFile (parser w)) then None else Some w.
Proof.
  intros Hty Hval Hnullish.
  destruct (message_onNodeToggle view data a w Hty) as (value' & Hval' & ->).
  assert (value' = value) as -> by congruence.
  unfold on_node_toggle.
  destruct (js_truthy (entryFile (parser w))); simpl; [|reflexivity].
  destruct Hnullish as [-> | ->]; reflexivity.
Qed.

(** X4: a ['settings'] message with a truthy value whose first element
    names none of the four fields updates no field, and still runs the
    tail of the case: the current settings are stored, [validSettings]
    decides whether [parse] runs, and [updateView] follows. *)
Theorem unknown_setting_still_commits view data a w value :
  js_prop "type" data = Some (JStr "settings") ->
  js_prop "value" data = Some value ->
  js_truthy value = true ->
  none_of setting_fields (js_index value 0) = true ->
  let ok := validSettings (disk w) (parser w) in
  exists w',
    onDidReceiveMessage view data a w = Some w' /\
    parser w' = (if ok then parse (disk w) (parser w) else parser w) /\
    since w w' =
      [StateUpdate "saplingSettings" (settings (parser w));
       Call (CallValidSettings ok)]
      ++ (if ok then [Call CallParse] else [])
      ++ match _view w with
         | Some v => view_effects v (parser w')
         | None => []
         end.
Proof.
  intros Hty Hval Htruthy Hnone ok.
  destruct (message_settings view data a w Hty) as (value' & Hval' & ->).
  assert (value' = value) as -> by congruence.
  exists (settings_commit w). split; [|split].
  - unfold on_settings. rewrite Htruthy. simpl.
    unfold none_of, setting_fields in Hnone. simpl in Hnone.
    repeat (apply andb_prop in Hnone as [Hhd Hnone];
            apply negb_true_iff in Hhd; rewrite Hhd; clear Hhd).
    reflexivity.
  - apply settings_commit_parser.
  - rewrite settings_commit_since, settings_commit_parser. reflexivity.
Qed.

(** *** The effects of one run, result by result *)

Lemma updateView_since w :
  since w (updateView w) =
  match _view w with
  | Some v => view_effects v (parser w)
  | None => []
  end.
Proof. apply since_app. apply updateView_log. Qed.

Lemma emit_since e w : since w (emit e w) = [e].
Proof. apply since_app. destruct w; reflexivity. Qed.

Lemma toggle_result_since id flag w :
  since w (state_update "sapling" (fst (call_toggleNode id flag w))
                        (snd (call_toggleNode id flag w)))
  = [Call (CallToggleNode id flag);
     StateUpdate "sapling" (snd (toggleNode id flag (parser w)))].
Proof. apply since_app. rewrite toggle_result_world. reflexivity. Qed.

Lemma bundled_quiet w w' pre :
  Forall (fun e => data_post e = false) pre ->
  since w w' = pre -> bundled w w'.
Proof. intros Hpre Hs. exists pre. split; [exact Hpre|left; exact Hs]. Qed.

Lemma bundled_refresh w w' pre :
  Forall (fun e => data_post e = false) pre ->
  since w w' = pre ++ match _view w with
                      | Some v => view_effects v (parser w')
                      | None => []
                      end ->
  bundled w w'.
Proof.
  intros Hpre Hs. exists pre. split; [exact Hpre|].
  destruct (_view w) as [v|] eqn:Hv.
  - right. exists v. split; [reflexivity|exact Hs].
  - left. rewrite Hs. apply app_nil_r.
Qed.

Lemma settings_commit_bundled w0 w pre :
  Forall (fun e => data_post e = false) pre ->
  _view w = _view w0 -> since w0 w = pre -> log w = log w0 ++ pre ->
  bundled w0 (settings_commit w).
Proof.
  intros Hpre Hv Hs Hlog.
  apply (bundled_refresh _ _
           (pre ++ [StateUpdate "saplingSettings" (settings (parser w));
                    Call (CallValidSettings
                            (validSettings (disk w) (parser w)))]
                ++ (if validSettings (disk w) (parser w)
                    then [Call CallParse] else []))).
  - apply Forall_app. split; [exact Hpre|].
    destruct (validSettings (disk w) (parser w)); repeat constructor.
  - apply since_app.
    rewrite settings_commit_log, settings_commit_parser, Hlog, Hv.
    rewrite <- !app_assoc. reflexivity.
Qed.

Lemma select_entry_bundled f w : bundled w (select_entry f w).
Proof.
  apply (bundled_refresh _ _ [Call (CallSetEntryFile f); Call CallParse]).
  - repeat constructor.
  - rewrite select_entry_since, select_entry_parser. reflexivity.
Qed.

Lemma message_result_bundled view w kind w' :
  message_result view w kind w' -> bundled w w'.
Proof.
  intros Hres.
  destruct Hres as [kind| |k x|f Hf|x| |x|id flag Hentry|v f Hv Hf].
  - apply (bundled_quiet _ _ []); [constructor|apply since_refl].
  - apply (settings_commit_bundled w w []);
      [constructor|reflexivity|apply since_refl|symmetry; apply app_nil_r].
  - apply (settings_commit_bundled w _ [Call (CallUpdateSettings k x)]).
    + repeat constructor.
    + destruct w; reflexivity.
    + apply since_app. destruct w; reflexivity.
    + destruct w; reflexivity.
  - apply select_entry_bundled.
  - apply (bundled_quiet _ _ [ShowTextDocument x]);
      [repeat constructor|apply emit_since].
  - apply (bundled_refresh _ _ []); [constructor|].
    rewrite updateView_since, updateView_parser. reflexivity.
  - apply (bundled_quiet _ _ [PostMessage view "preferences-data" x]);
      [repeat constructor|apply emit_since].
  - eapply bundled_quiet; [|apply toggle_result_since]. repeat constructor.
  - apply (bundled_quiet _ _ [PostMessage v "current-tab" (JStr f)]);
      [repeat constructor|apply emit_since].
Qed.

Lemma onDidReceiveMessage_type view data a w w' :
  onDidReceiveMessage view data a w = Some w' ->
  exists type, js_prop "type" data = Some type.
Proof.
  unfold onDidReceiveMessage. intros Hrun.
  destruct (js_prop "type" data) as [type|]; [|discriminate].
  exists type. reflexivity.
Qed.

Lemma clearWorkSpaceState_since w :
  since w (clearWorkSpaceState w) =
  [StateUpdate "sapling" JUndefined;
   StateUpdate "saplingSettings" JUndefined;
   Call (CallNew (JStr "") None)]
  ++ match _view w with
     | Some v => view_effects v (new_parser (JStr "") None)
     | None => []
     end.
Proof.
  apply since_app. unfold clearWorkSpaceState. rewrite updateView_log.
  destruct w as [vw p ws ls d l]. simpl. rewrite <- !app_assoc. reflexivity.
Qed.

Lemma clearWorkSpaceState_parser w :
  parser (clearWorkSpaceState w) = new_parser (JStr "") None.
Proof.
  unfold clearWorkSpaceState. rewrite updateView_parser.
  destruct w; reflexivity.
Qed.

(** X7: whatever the message listener, [statusButtonClicked], the save
    listener or [clearWorkSpaceState] do, the tree and the settings reach a
    webview only as the closing bundle of [updateView]: the effects of a run
    are some effects that post neither, followed either by nothing or by the
    four effects of [updateView] for the attached webview and the parser
    the run ends with. *)
Theorem tree_and_settings_posted_as_one_bundle :
  (forall view data a w w',
      onDidReceiveMessage view data a w = Some w' -> bundled w w') /\
  (forall uri a w, bundled w (statusButtonClicked uri a w)) /\
  (forall f (w : @World P), bundled w (onDidSaveTextDocument f w)) /\
  (forall w : @World P, bundled w (clearWorkSpaceState w)).
Proof.
  split; [|split; [|split]].
  - intros view data a w w' Hrun.
    destruct (onDidReceiveMessage_type _ _ _ _ _ Hrun) as [type Hty].
    eapply message_result_bundled.
    apply (onDidReceiveMessage_result _ _ _ _ _ _ Hty Hrun).
  - intros uri a w.
    destruct (statusButtonClicked_cases uri a w) as [-> | (f & _ & ->)].
    + apply (bundled_quiet _ _ []); [constructor|apply since_refl].
    + apply select_entry_bundled.
  - intros f w. destruct (js_truthy (entryFile (parser w))) eqn:Hentry.
    + rewrite (onDidSaveTextDocument_routed _ _ Hentry).
      apply (bundled_refresh _ _ [Call (CallUpdateTree f)]);
        [repeat constructor|].
      rewrite save_since, updateView_parser. destruct w; reflexivity.
    + rewrite (onDidSaveTextDocument_ignored _ _ Hentry).
      apply (bundled_quiet _ _ []); [constructor|apply since_refl].
  - intros w.
    apply (bundled_refresh _ _
             [StateUpdate "sapling" JUndefined;
              StateUpdate "saplingSettings" JUndefined;
              Call (CallNew (JStr "") None)]); [repeat constructor|].
    rewrite clearWorkSpaceState_since, clearWorkSpaceState_parser.
    reflexivity.
Qed.

(** *** What a run leaves alone *)

Lemma message_result_since view w kind w' :
  message_result view w kind w' ->
  Forall (fun e =>
            match e with
            | Call c => rebuilding_call c = false
            | PostMessage target _ _ =>
                target = view /\ kind = KPreferences \/
                _view w = Some target /\ kind <> KPreferences
            | _ => True
            end) (since w w').
Proof.
  intros Hres.
  assert (Hview : forall v p k,
             _view w = Some v -> k <> KPreferences ->
             Forall (fun e =>
                       match e with
                       | Call c => rebuilding_call c = false
                       | PostMessage target _ _ =>
                           target = view /\ k = KPreferences \/
                           _view w = Some target /\ k <> KPreferences
                       | _ => True
                       end) (view_effects v p)).
  { intros v p k Hv Hk. unfold view_effects.
    repeat (apply Forall_cons; split;
            [first [exact I | reflexivity | right; split; assumption]|]).
    constructor. }
  destruct Hres as [kind| |k x|f Hf|x| |x|id flag Hentry|v f Hv Hf].
  - rewrite since_refl. constructor.
  - rewrite settings_commit_since.
    repeat (apply Forall_cons; split; [first [exact I | reflexivity]|]).
    apply Forall_app. split.
    + destruct (validSettings _ _); repeat constructor.
    + destruct (_view w) eqn:Hv; [|constructor].
      apply Hview; [reflexivity|discriminate].
  - rewrite update_commit_since.
    repeat (apply Forall_cons; split; [first [exact I | reflexivity]|]).
    apply Forall_app. split.
    + destruct (validSettings _ _); repeat constructor.
    + destruct (_view w) eqn:Hv; [|constructor].
      apply Hview; [reflexivity|discriminate].
  - rewrite select_entry_since.
    repeat (apply Forall_cons; split; [first [exact I | reflexivity]|]).
    destruct (_view w) eqn:Hv; [|constructor].
    apply Hview; [reflexivity|discriminate].
  - rewrite emit_since. repeat constructor.
  - rewrite updateView_since.
    destruct (_view w) eqn:Hv; [|constructor].
    apply Hview; [reflexivity|discriminate].
  - unfold postMessage. rewrite emit_since.
    apply Forall_cons; split; [|constructor].
    left. split; reflexivity.
  - rewrite toggle_result_since. repeat constructor.
  - unfold postMessage. rewrite emit_since.
    apply Forall_cons; split; [|constructor].
    right. split; [exact Hv|discriminate].
Qed.

Lemma kind_of_not_settings type :
  js_is_str type "settings" = false -> kind_of type <> KSettings.
Proof.
  intros Hne. unfold kind_of. rewrite Hne.
  repeat (destruct (js_is_str type _); [discriminate|]). discriminate.
Qed.

Lemma none_of_mutating type :
  none_of ["settings"; "onFile"; "onNodeToggle"] type = true ->
  In (kind_of type) [KViewFile; KVisible; KPreferences; KBold; KOther].
Proof.
  unfold none_of, kind_of. simpl. intros Hnone.
  repeat (apply andb_prop in Hnone as [Hhd Hnone];
          apply negb_true_iff in Hhd; rewrite Hhd; clear Hhd).
  repeat (destruct (js_is_str type _); [simpl; tauto|]). simpl. tauto.
Qed.

(** X6: a message of a type other than ['settings'], ['onFile'] and
    ['onNodeToggle'] leaves the parser as it is; the only parser method it
    can call is [getTree], and the only key it can write is ['sapling']. *)
Theorem readonly_messages_keep_parser view data a w w' type :
  js_prop "type" data = Some type ->
  none_of ["settings"; "onFile"; "onNodeToggle"] type = true ->
  onDidReceiveMessage view data a w = Some w' ->
  parser w' = parser w /\
  (forall c, In (Call c) (since w w') -> c = CallGetTree) /\
  (forall key, key <> "sapling" ->
               workspaceState w' !! key = workspaceState w !! key).
Proof.
  intros Hty Hnone Hrun.
  pose proof (onDidReceiveMessage_result _ _ _ _ _ _ Hty Hrun) as Hres.
  pose proof (none_of_mutating _ Hnone) as Hkind.
  split; [|split].
  - destruct Hres; simpl in Hkind; try (exfalso; naive_solver);
      try reflexivity; try apply updateView_parser; destruct w; reflexivity.
  - intros c Hin.
    destruct Hres; simpl in Hkind; try (exfalso; naive_solver).
    + rewrite since_refl in Hin. destruct Hin.
    + rewrite emit_since in Hin. simpl in Hin. naive_solver.
    + rewrite updateView_since in Hin.
      destruct (_view w); unfold view_effects in Hin; simpl in Hin;
        naive_solver.
    + unfold postMessage in Hin. rewrite emit_since in Hin.
      simpl in Hin. naive_solver.
    + unfold postMessage in Hin. rewrite emit_since in Hin.
      simpl in Hin. naive_solver.
  - intros key Hkey.
    apply (message_result_store _ _ _ _ _ Hres Hkey). right.
    intros Heq. rewrite Heq in Hkind. simpl in Hkind. naive_solver.
Qed.

Lemma statusButtonClicked_store uri a w key :
  key <> "sapling" ->
  workspaceState (statusButtonClicked uri a w) !! key
  = workspaceState w !! key.
Proof.
  intros Hkey.
  destruct (statusButtonClicked_cases uri a w) as [-> | (f & _ & ->)];
    [reflexivity|].
  rewrite select_entry_store.
  destruct (_view w); rewrite ?memento_update_other by congruence;
    reflexivity.
Qed.

Lemma onDidSaveTextDocument_store f w key :
  key <> "sapling" ->
  workspaceState (onDidSaveTextDocument f w) !! key
  = workspaceState w !! key.
Proof.
  intros Hkey. unfold onDidSaveTextDocument.
  destruct (negb _); [reflexivity|]. rewrite updateView_store.
  destruct w as [[v|] p ws ls d l]; simpl;
    rewrite ?memento_update_other by congruence; reflexivity.
Qed.

Lemma clearWorkSpaceState_store w :
  workspaceState (clearWorkSpaceState w) =
  match _view w with
  | Some _ =>
      memento_update "sapling" (getTree (new_parser (JStr "") None))
        (delete "saplingSettings" (delete "sapling" (workspaceState w)))
  | None => delete "saplingSettings" (delete "sapling" (workspaceState w))
  end.
Proof. destruct w as [[v|] p ws ls d l]; reflexivity. Qed.

(** X10: the message listener, [statusButtonClicked], the save listener
    and [clearWorkSpaceState] write the workspace store under ['sapling']
    and ['saplingSettings'] only: what is stored under any other key stays
    as it is. *)
Theorem handlers_write_only_their_two_keys key :
  key <> "sapling" -> key <> "saplingSettings" ->
  (forall view data a w w',
      onDidReceiveMessage view data a w = Some w' ->
      workspaceState w' !! key = workspaceState w !! key) /\
  (forall uri a (w : @World P),
      workspaceState (statusButtonClicked uri a w) !! key
      = workspaceState w !! key) /\
  (forall f (w : @World P),
      workspaceState (onDidSaveTextDocument f w) !! key
      = workspaceState w !! key) /\
  (forall w : @World P,
      workspaceState (clearWorkSpaceState w) !! key
      = workspaceState w !! key).
Proof.
  intros Htree Hsettings. split; [|split; [|split]].
  - intros view data a w w' Hrun.
    destruct (onDidReceiveMessage_type _ _ _ _ _ Hrun) as [type Hty].
    apply (message_result_store _ _ _ _ _
             (onDidReceiveMessage_result _ _ _ _ _ _ Hty Hrun) Htree).
    left. exact Hsettings.
  - intros uri a w. apply statusButtonClicked_store. exact Htree.
  - intros f w. apply onDidSaveTextDocument_store. exact Htree.
  - intros w. rewrite clearWorkSpaceState_store.
    destruct (_view w); rewrite ?memento_update_other by congruence;
      rewrite !lookup_delete_ne by congruence; reflexivity.
Qed.

(** X11: what is stored under ['saplingSettings'] is left alone by every
    message other than ['settings'], by [statusButtonClicked] and by the
    save listener. *)
Theorem settings_key_written_by_settings_case_only :
  (forall view data a w w' type,
      js_prop "type" data = Some type ->
      js_is_str type "settings" = false ->
      onDidReceiveMessage view data a w = Some w' ->
      workspaceState w' !! "saplingSettings"
      = workspaceState w !! "saplingSettings") /\
  (forall uri a (w : @World P),
      workspaceState (statusButtonClicked uri a w) !! "saplingSettings"
      = workspaceState w !! "saplingSettings") /\
  (forall f (w : @World P),
      workspaceState (onDidSaveTextDocument f w) !! "saplingSettings"
      = workspaceState w !! "saplingSettings").
Proof.
  split; [|split].
  - intros view data a w w' type Hty Hne Hrun.
    apply (message_result_store _ _ _ _ _
             (onDidReceiveMessage_result _ _ _ _ _ _ Hty Hrun));
      [discriminate|].
    right. apply kind_of_not_settings. exact Hne.
  - intros uri a w. apply statusButtonClicked_store. discriminate.
  - intros f w. apply onDidSaveTextDocument_store. discriminate.
Qed.

(** X9: the message listener never constructs a parser and never calls
    [setTree] or [updateTree]. *)
Theorem message_listener_never_rebuilds view data a w w' c :
  onDidReceiveMessage view data a w = Some w' ->
  In (Call c) (since w w') -> rebuilding_call c = false.
Proof.
  intros Hrun Hin.
  destruct (onDidReceiveMessage_type _ _ _ _ _ Hrun) as [type Hty].
  pose proof (message_result_since _ _ _ _
                (onDidReceiveMessage_result _ _ _ _ _ _ Hty Hrun)) as Hall.
  rewrite Forall_forall in Hall. apply (Hall (Call c)).
  apply list_elem_of_In. exact Hin.
Qed.

(** X8: a message posted by the message listener goes to the webview
    stored in [_view], except in the ['onPreferencesAcquire'] case, whose
    answer goes to the webview the listener was installed on. *)
Theorem posts_go_to_the_attached_webview view data a w w' type target ty x :
  js_prop "type" data = Some type ->
  onDidReceiveMessage view data a w = Some w' ->
  In (PostMessage target ty x) (since w w') ->
  match kind_of type with
  | KPreferences => target = view
  | _ => _view w = Some target
  end.
Proof.
  intros Hty Hrun Hin.
  pose proof (message_result_since _ _ _ _
                (onDidReceiveMessage_result _ _ _ _ _ _ Hty Hrun)) as Hall.
  rewrite Forall_forall in Hall.
  specialize (Hall (PostMessage target ty x)). simpl in Hall.
  destruct Hall as [[-> ->] | [Hv Hkind]];
    [apply list_elem_of_In; exact Hin|reflexivity|].
  destruct (kind_of type); try exact Hv. contradiction.
Qed.

(** *** The field a settings message updates *)

Lemma commit_updates_no_field w k x :
  ~ In (Call (CallUpdateSettings k x)) (since w (settings_commit w)).
Proof.
  rewrite settings_commit_since. intros Hin.
  destruct (validSettings _ _), (_view w); unfold view_effects in Hin;
    simpl in Hin; naive_solver.
Qed.

Lemma update_commit_field k0 x0 w k x :
  In (Call (CallUpdateSettings k x))
     (since w (settings_commit (call_updateSettings k0 x0 w))) ->
  k = k0 /\ x = x0.
Proof.
  rewrite update_commit_since. intros Hin.
  destruct (validSettings _ _), (_view w); unfold view_effects in Hin;
    simpl in Hin; naive_solver.
Qed.

(** X5: when the ['settings'] case calls [updateSettings], the field is
    the one named by the first element of the message's value, one of the
    four known fields; the new value is the message's second element for
    ['useAlias'] and the picked path for the others. *)
Theorem settings_update_names_the_field view data a w w' value k x :
  js_prop "type" data = Some (JStr "settings") ->
  js_prop "value" data = Some value ->
  onDidReceiveMessage view data a w = Some w' ->
  In (Call (CallUpdateSettings k x)) (since w w') ->
  js_index value 0 = JStr k /\ In k setting_fields /\
  x = if String.eqb k "useAlias" then js_index value 1 else picked a.
Proof.
  intros Hty Hval Hrun Hin.
  destruct (message_settings view data a w Hty) as (value' & Hval' & Heq).
  assert (value' = value) as -> by congruence.
  rewrite Heq in Hrun. clear Heq Hval'. unfold on_settings in Hrun.
  assert (Hsame : w' = w -> False).
  { intros ->. rewrite since_refl in Hin. destruct Hin. }
  destruct (negb (js_truthy value)); [exfalso; apply Hsame; congruence|].
  destruct (js_is_str (js_index value 0) "useAlias") eqn:Halias.
  { injection Hrun as <-. apply update_commit_field in Hin as [-> ->].
    split; [exact (js_is_str_true _ _ Halias)|].
    split; [simpl; tauto|reflexivity]. }
  destruct (js_is_str (js_index value 0) "appRoot") eqn:Hroot.
  { unfold picked. destruct (openDialog a) as [[|path rest]|];
      simpl in Hrun; try discriminate;
      [|exfalso; apply Hsame; congruence].
    destruct (String.eqb path ""); [exfalso; apply Hsame; congruence|].
    injection Hrun as <-. apply update_commit_field in Hin as [-> ->].
    split; [exact (js_is_str_true _ _ Hroot)|].
    split; [simpl; tauto|reflexivity]. }
  destruct (js_is_str (js_index value 0) "webpackConfig"
            || js_is_str (js_index value 0) "tsConfig") eqn:Hconfig.
  { unfold picked. destruct (openDialog a) as [[|path rest]|];
      simpl in Hrun; try discriminate;
      [|exfalso; apply Hsame; congruence].
    destruct (js_index value 0) as [| | | |field| |] eqn:Hkey;
      try (exfalso; apply Hsame; congruence).
    destruct (String.eqb path ""); [exfalso; apply Hsame; congruence|].
    injection Hrun as <-. apply update_commit_field in Hin as [-> ->].
    split; [reflexivity|].
    apply orb_true_iff in Hconfig as [Hc | Hc];
      apply js_is_str_true in Hc; injection Hc as ->;
      (split; [simpl; tauto|reflexivity]). }
  injection Hrun as <-. exfalso. eapply commit_updates_no_field. exact Hin.
Qed.

(** *** Entry-file selection from the command and from the panel *)

Lemma statusButtonClicked_chosen uri a w :
  statusButtonClicked uri a w =
  match chosen_file uri a with
  | Some f => if String.eqb f "" then w else select_entry f w
  | None => w
  end.
Proof.
  destruct uri as [path|]; simpl; [reflexivity|].
  destruct (activeTextEditor a); reflexivity.
Qed.

(** X12: picking the file [f] in the panel (['onFile']) does to the
    provider exactly what the Generate Tree command does for a resource
    with path [f]. *)
Theorem panel_pick_is_generate_tree view data a a' w f rest :
  js_prop "type" data = Some (JStr "onFile") ->
  openDialog a = Some (f :: rest) ->
  onDidReceiveMessage view data a w
  = Some (statusButtonClicked (Some f) a' w).
Proof.
  intros Hty Hdialog. rewrite (message_onFile view data a w Hty).
  unfold on_file. rewrite Hdialog. simpl.
  destruct (String.eqb f ""); reflexivity.
Qed.

(** X13: [statusButtonClicked] takes the clicked resource's path and
    falls back to the file of the active editor.  It has no effect exactly
    when that leaves no file or an empty name; otherwise the parser is
    given the file as entry file and parses, without [validSettings] being
    asked. *)
Theorem generate_tree_needs_a_file uri a w :
  (since w (statusButtonClicked uri a w) = [] <->
   chosen_file uri a = None \/ chosen_file uri a = Some "") /\
  (forall f,
      chosen_file uri a = Some f -> f <> "" ->
      parser (statusButtonClicked uri a w)
      = parse (disk w) (setEntryFile f (parser w)) /\
      forall ok,
        ~ In (Call (CallValidSettings ok))
             (since w (statusButtonClicked uri a w))).
Proof.
  rewrite statusButtonClicked_chosen. split.
  - destruct (chosen_file uri a) as [f|]; [|rewrite since_refl; tauto].
    destruct (String.eqb f "") eqn:Hf.
    + apply String.eqb_eq in Hf as ->. rewrite since_refl. tauto.
    + apply String.eqb_neq in Hf. rewrite select_entry_since. split.
      * discriminate.
      * intros [Hnone | Hempty]; [discriminate|congruence].
  - intros f -> Hf. apply String.eqb_neq in Hf. rewrite Hf.
    split; [apply select_entry_parser|].
    intros ok Hin. rewrite select_entry_since in Hin.
    destruct (_view w); unfold view_effects in Hin; simpl in Hin;
      naive_solver.
Qed.

(** *** Clearing, and starting again *)

(** X14: [clearWorkSpaceState] run a second time changes neither the
    parser nor the workspace store. *)
Theorem clearWorkSpaceState_twice w :
  parser (clearWorkSpaceState (clearWorkSpaceState w))
  = parser (clearWorkSpaceState w) /\
  workspaceState (clearWorkSpaceState (clearWorkSpaceState w))
  = workspaceState (clearWorkSpaceState w).
Proof.
  split; [rewrite !clearWorkSpaceState_parser; reflexivity|].
  assert (_view (clearWorkSpaceState w) = _view w) as Hv.
  { unfold clearWorkSpaceState. rewrite updateView_view.
    destruct w; reflexivity. }
  rewrite (clearWorkSpaceState_store (clearWorkSpaceState w)), Hv.
  rewrite (clearWorkSpaceState_store w).
  apply map_eq. intros key.
  destruct (decide (key = "sapling")) as [->|Htree];
    [|destruct (decide (key = "saplingSettings")) as [->|Hsettings]].
  - destruct (_view w); unfold memento_update;
      destruct (getTree (new_parser (JStr "") None));
      simplify_map_eq; reflexivity.
  - destruct (_view w); unfold memento_update;
      destruct (getTree (new_parser (JStr "") None));
      simplify_map_eq; reflexivity.
  - destruct (_view w); unfold memento_update;
      destruct (getTree (new_parser (JStr "") None));
      simplify_map_eq; reflexivity.
Qed.

Lemma memento_update_truthy k x (m : gmap string JsVal) :
  js_truthy x = true -> memento_update k x m !! k = Some x.
Proof.
  unfold memento_update. destruct x; simpl; try discriminate;
    intros _; apply lookup_insert_eq.
Qed.

Lemma initial_settings_frame (m m' : gmap string JsVal) root :
  m' !! "saplingSettings" = m !! "saplingSettings" ->
  initial_settings m' root = initial_settings m root.
Proof.
  intros Heq. unfold initial_settings, memento_get. rewrite Heq. reflexivity.
Qed.

(** X15: what [updateView] saves, the next constructor restores: with a
    webview attached and a truthy tree, constructing a provider over the
    store [updateView] leaves behind builds the parser from that tree's
    [filePath] and hands the tree to [setTree], calling nothing else. *)
Theorem saved_tree_restored_at_restart v w folders root d :
  _view w = Some v ->
  js_truthy (getTree (parser w)) = true ->
  workspaceRoot folders = Some root ->
  exists fp w2,
    js_prop "filePath" (getTree (parser w)) = Some fp /\
    SidebarProvider_new (workspaceState (updateView w)) folders d = Some w2 /\
    parser w2 =
      setTree (getTree (parser w))
        (new_parser fp (Some (initial_settings (workspaceState w) root))) /\
    forall c, In (Call c) (log w2) ->
              c = CallNew fp (Some (initial_settings (workspaceState w) root))
              \/ c = CallSetTree (getTree (parser w)).
Proof.
  intros Hv Htruthy Hroot.
  destruct (SidebarProvider_new_restores
              (workspaceState (updateView w)) folders d
              (getTree (parser w)) root) as (fp & Hfp & Hnew);
    [|exact Htruthy|exact Hroot|].
  { rewrite updateView_store, Hv. apply memento_update_truthy, Htruthy. }
  assert (initial_settings (workspaceState (updateView w)) root
          = initial_settings (workspaceState w) root) as Hinit.
  { apply initial_settings_frame. rewrite updateView_store, Hv.
    apply memento_update_other. discriminate. }
  rewrite Hinit in Hnew.
  exists fp. eexists. split; [exact Hfp|]. split; [exact Hnew|].
  split; [reflexivity|].
  intros c Hin. simpl in Hin. naive_solver.
Qed.

(** X16: the settings stored by the tail of the ['settings'] case are
    the settings the next constructor hands to the parser, whatever the
    workspace folder and whether or not [validSettings] accepted them. *)
Theorem saved_settings_used_at_restart w folders root d :
  js_truthy (settings (parser w)) = true ->
  workspaceRoot folders = Some root ->
  exists fp w2,
    SidebarProvider_new (workspaceState (settings_commit w)) folders d
    = Some w2 /\
    head (log w2) = Some (Call (CallNew fp (Some (settings (parser w))))).
Proof.
  intros Htruthy Hroot.
  set (store := workspaceState (settings_commit w)).
  assert (initial_settings store root = settings (parser w)) as Hinit.
  { unfold initial_settings, store. rewrite settings_commit_store, Htruthy.
    reflexivity. }
  destruct (js_truthy (memento_get "sapling" store)) eqn:Htree.
  - destruct (store !! "sapling") as [snap|] eqn:Hsnap;
      [|unfold memento_get in Htree; rewrite Hsnap in Htree; discriminate].
    assert (js_truthy snap = true) as Hts
        by (unfold memento_get in Htree; rewrite Hsnap in Htree; exact Htree).
    destruct (SidebarProvider_new_restores store folders d snap root
                Hsnap Hts Hroot) as (fp & _ & ->).
    eexists fp, _. split; [reflexivity|]. simpl. rewrite Hinit. reflexivity.
  - rewrite (SidebarProvider_new_fresh store folders d root Htree Hroot).
    eexists _, _. split; [reflexivity|]. simpl. rewrite Hinit. reflexivity.
Qed.

(** X17: a provider constructed over the store that
    [clearWorkSpaceState] leaves behind starts from the default settings;
    if no webview was attached when the state was cleared, it starts with
    an empty entry file and restores no tree. *)
Theorem restart_after_clear w folders root d :
  workspaceRoot folders = Some root ->
  exists fp w2,
    SidebarProvider_new (workspaceState (clearWorkSpaceState w)) folders d
    = Some w2 /\
    head (log w2) = Some (Call (CallNew fp (Some (defaultSettings root)))) /\
    (_view w = None ->
     parser w2 = new_parser (JStr "") (Some (defaultSettings root)) /\
     log w2 = [Call (CallNew (JStr "") (Some (defaultSettings root)))]).
Proof.
  intros Hroot.
  set (store := workspaceState (clearWorkSpaceState w)).
  assert (store !! "saplingSettings" = None) as Hsettings.
  { unfold store. rewrite clearWorkSpaceState_store.
    destruct (_view w); rewrite ?memento_update_other by discriminate;
      apply lookup_delete_eq. }
  assert (initial_settings store root = defaultSettings root) as Hinit.
  { unfold initial_settings, memento_get. rewrite Hsettings. reflexivity. }
  destruct (js_truthy (memento_get "sapling" store)) eqn:Htree.
  - destruct (store !! "sapling") as [snap|] eqn:Hsnap;
      [|unfold memento_get in Htree; rewrite Hsnap in Htree; discriminate].
    assert (js_truthy snap = true) as Hts
        by (unfold memento_get in Htree; rewrite Hsnap in Htree; exact Htree).
    destruct (SidebarProvider_new_restores store folders d snap root
                Hsnap Hts Hroot) as (fp & _ & ->).
    eexists fp, _. split; [reflexivity|]. simpl. rewrite Hinit.
    split; [reflexivity|].
    intros Hv. exfalso. unfold store in Hsnap.
    rewrite clearWorkSpaceState_store, Hv in Hsnap.
    rewrite lookup_delete_ne in Hsnap by discriminate.
    rewrite lookup_delete_eq in Hsnap. discriminate.
  - rewrite (SidebarProvider_new_fresh store folders d root Htree Hroot).
    eexists _, _. split; [reflexivity|]. simpl. rewrite Hinit.
    split; [reflexivity|]. intros _. split; reflexivity.
Qed.

(** *** Over the events *)




Lemma step_attachment e w v :
  _view w = Some v ->
  (exists v', _view (step e w) = Some v') /\
  exists added, listeners (step e w) = listeners w ++ added.
Proof.
  intros Hv.
  assert (Hshell : same_shell w (step e w) ->
                   (exists v', _view (step e w) = Some v') /\
                   exists added, listeners (step e w) = listeners w ++ added).
  { intros [Hv' Hl']. rewrite Hv', Hl'. split; [exists v; exact Hv|].
    exists []. symmetry. apply app_nil_r. }
  destruct e as [v1|v1|a|e|f|source data a|uri a|].
  - destruct w. simpl. split; eexists; reflexivity.
  - destruct w. simpl. split; eexists; [reflexivity|].
    symmetry. apply app_nil_r.
  - apply Hshell, step_shell; discriminate.
  - apply Hshell, step_shell; discriminate.
  - apply Hshell, step_shell; discriminate.
  - apply Hshell, step_shell; discriminate.
  - apply Hshell, step_shell; discriminate.
  - apply Hshell, step_shell; discriminate.
Qed.

(** X19: once a webview is attached the provider stays attached to
    some webview through every sequence of events, and the installed
    listeners are only ever added to. *)
Theorem webview_never_detached es w v :
  _view w = Some v ->
  (exists v', _view (run es w) = Some v') /\
  exists added, listeners (run es w) = listeners w ++ added.
Proof.
  revert w v. induction es as [|e es IH]; intros w v Hv.
  - split; [exists v; exact Hv|exists []; symmetry; apply app_nil_r].
  - simpl. destruct (step_attachment e w v Hv) as [[v1 Hv1] [added1 Hl1]].
    destruct (IH (step e w) v1 Hv1) as [Hview [added Hl]].
    split; [exact Hview|].
    exists (added1 ++ added). etrans; [exact Hl|]. rewrite Hl1.
    symmetry. apply app_assoc.
Qed.

Lemma run_listeners_frame (h : View -> @World P -> @World P) vs w key :
  (forall v w0, workspaceState (h v w0) !! key = workspaceState w0 !! key) ->
  workspaceState (run_listeners h vs w) !! key = workspaceState w !! key.
Proof.
  intros Hh. revert w. induction vs as [|v vs IH]; intros w; simpl.
  - reflexivity.
  - etrans; [exact (IH (h v w))|]. apply Hh.
Qed.

Lemma onDidReceiveMessage_frame view data a w w' key :
  key <> "sapling" -> key <> "saplingSettings" ->
  onDidReceiveMessage view data a w = Some w' ->
  workspaceState w' !! key = workspaceState w !! key.
Proof.
  intros Htree Hsettings Hrun.
  destruct (onDidReceiveMessage_type _ _ _ _ _ Hrun) as [type Hty].
  apply (message_result_store _ _ _ _ _
           (onDidReceiveMessage_result _ _ _ _ _ _ Hty Hrun) Htree).
  left. exact Hsettings.
Qed.

Lemma clearWorkSpaceState_frame w key :
  key <> "sapling" -> key <> "saplingSettings" ->
  workspaceState (clearWorkSpaceState w) !! key = workspaceState w !! key.
Proof.
  intros Htree Hsettings. rewrite clearWorkSpaceState_store.
  destruct (_view w); rewrite ?memento_update_other by congruence;
    rewrite !lookup_delete_ne by congruence; reflexivity.
Qed.

Lemma step_frame e w key :
  key <> "sapling" -> key <> "saplingSettings" ->
  workspaceState (step e w) !! key = workspaceState w !! key.
Proof.
  intros Htree Hsettings. destruct e; simpl.
  - destruct w; reflexivity.
  - destruct w; reflexivity.
  - apply run_listeners_frame. intros v w0. destruct w0; reflexivity.
  - apply run_listeners_frame. intros v w0. destruct w0; reflexivity.
  - apply run_listeners_frame. intros v w0.
    apply onDidSaveTextDocument_store. exact Htree.
  - apply run_listeners_frame. intros v w0.
    destruct (onDidReceiveMessage v data a w0) eqn:Hrun; simpl;
      [|reflexivity].
    eapply onDidReceiveMessage_frame; eassumption.
  - apply statusButtonClicked_store. exact Htree.
  - apply clearWorkSpaceState_frame; assumption.
Qed.

(** X20: through every sequence of events, what the workspace store
    holds under keys other than ['sapling'] and ['saplingSettings'] stays as
    it is. *)
Theorem run_keeps_foreign_keys es w key :
  key <> "sapling" -> key <> "saplingSettings" ->
  workspaceState (run es w) !! key = workspaceState w !! key.
Proof.
  intros Htree Hsettings. revert w.
  induction es as [|e es IH]; intros w; simpl; [reflexivity|].
  etrans; [exact (IH (step e w))|]. apply step_frame; assumption.
Qed.

End HostObservationProperties.

(** * The further properties on the scenarios *)

Module ObservationFacts.

Import SpecParser Scenarios MoreScenarios.

Lemma aliased_run :
  onDidReceiveMessage 1 useAlias_message quiet generated = Some aliased.
Proof. vm_compute. reflexivity. Qed.

Lemma toggled_run :
  onDidReceiveMessage 1 toggle_message quiet generated = Some toggled.
Proof. vm_compute. reflexivity. Qed.

(** X1, witness: ['onFile'] with the picker cancelled. *)
Lemma cancelled_picker_changes_nothing_witness :
  onDidReceiveMessage 1 onFile_message quiet generated = Some generated.
Proof.
  apply (cancelled_picker_changes_nothing 1 onFile_message quiet generated
           JUndefined).
  - left. reflexivity.
  - left. reflexivity.
Defined.

(** X2, witness: a message of type ['refresh']. *)
Lemma unhandled_message_changes_nothing_witness :
  onDidReceiveMessage 1 stray_message quiet generated = Some generated.
Proof.
  apply (unhandled_message_changes_nothing 1 stray_message quiet generated
           (JStr "refresh") JNull).
  - reflexivity.
  - reflexivity.
  - left. reflexivity.
Defined.

(** X3, witness: a toggle without a value, with a tree and before any. *)
Lemma toggle_without_payload_witness :
  onDidReceiveMessage 1 bare_toggle quiet generated = None /\
  onDidReceiveMessage 1 bare_toggle quiet attached = Some attached.
Proof.
  split.
  - etrans.
    + apply (toggle_without_payload 1 bare_toggle quiet generated JUndefined).
      * reflexivity.
      * reflexivity.
      * left. reflexivity.
    + vm_compute. reflexivity.
  - etrans.
    + apply (toggle_without_payload 1 bare_toggle quiet attached JUndefined).
      * reflexivity.
      * reflexivity.
      * left. reflexivity.
    + vm_compute. reflexivity.
Defined.

(** X4, witness: a settings message for the field ['theme']. *)
Lemma unknown_setting_still_commits_witness :
  exists w',
    onDidReceiveMessage 1 theme_message quiet generated = Some w' /\
    In (StateUpdate "saplingSettings" (settings (parser generated)))
       (since generated w').
Proof.
  pose proof (unknown_setting_still_commits 1 theme_message quiet generated
                theme_value eq_refl eq_refl eq_refl eq_refl) as Hcommit.
  cbv zeta in Hcommit. destruct Hcommit as (w' & Hrun & _ & Hsince).
  exists w'. split; [exact Hrun|]. rewrite Hsince. left. reflexivity.
Defined.

(** X6, witness: ['onSaplingVisible']. *)
Lemma readonly_messages_keep_parser_witness :
  parser (updateView generated) = parser generated.
Proof.
  assert (onDidReceiveMessage 1 visible_message quiet generated
          = Some (updateView generated)) as Hrun by reflexivity.
  exact (proj1 (readonly_messages_keep_parser 1 visible_message quiet
                  generated (updateView generated) (JStr "onSaplingVisible")
                  eq_refl eq_refl Hrun)).
Defined.

(** X7, witness: switching [useAlias] on. *)
Lemma tree_and_settings_posted_as_one_bundle_witness :
  bundled generated aliased.
Proof.
  exact (proj1 (@tree_and_settings_posted_as_one_bundle Parser _)
           1 useAlias_message quiet generated aliased aliased_run).
Defined.

(** X12, witness: picking [/A.tsx] in the panel. *)
Lemma panel_pick_is_generate_tree_witness :
  onDidReceiveMessage 1 onFile_message (picking "/A.tsx") attached
  = Some generated.
Proof.
  exact (panel_pick_is_generate_tree 1 onFile_message (picking "/A.tsx")
           quiet attached "/A.tsx" [] eq_refl eq_refl).
Defined.

(** X13, witness: the command without resource and editor, and on [/A.tsx]. *)
Lemma generate_tree_needs_a_file_witness :
  since attached (statusButtonClicked None quiet attached) = [] /\
  parser generated
  = parse (disk attached) (setEntryFile "/A.tsx" (parser attached)).
Proof.
  split.
  - apply (proj1 (generate_tree_needs_a_file None quiet attached)).
    left. reflexivity.
  - apply (proj2 (generate_tree_needs_a_file (Some "/A.tsx") quiet attached)
             "/A.tsx").
    + reflexivity.
    + discriminate.
Defined.

(** X10, witness: the key ['theme'] over the [useAlias] message. *)
Lemma handlers_write_only_their_two_keys_witness :
  workspaceState aliased !! "theme" = workspaceState generated !! "theme".
Proof.
  assert ("theme" <> "sapling") as Htree by discriminate.
  assert ("theme" <> "saplingSettings") as Hsettings by discriminate.
  exact (proj1 (@handlers_write_only_their_two_keys Parser _ "theme"
                  Htree Hsettings)
           1 useAlias_message quiet generated aliased aliased_run).
Defined.

(** X11, witness: a node toggle. *)
Lemma settings_key_written_by_settings_case_only_witness :
  workspaceState toggled !! "saplingSettings"
  = workspaceState generated !! "saplingSettings".
Proof.
  exact (proj1 (@settings_key_written_by_settings_case_only Parser _)
           1 toggle_message quiet generated toggled (JStr "onNodeToggle")
           eq_refl eq_refl toggled_run).
Defined.

(** X9, witness: the field update of the [useAlias] message. *)
Lemma message_listener_never_rebuilds_witness :
  rebuilding_call (CallUpdateSettings "useAlias" (JBool true)) = false.
Proof.
  apply (message_listener_never_rebuilds 1 useAlias_message quiet generated
           aliased _ aliased_run).
  vm_compute. left. reflexivity.
Defined.

(** X8, witness: the settings posted after switching [useAlias] on. *)
Lemma posts_go_to_the_attached_webview_witness :
  _view generated = Some 1.
Proof.
  apply (posts_go_to_the_attached_webview 1 useAlias_message quiet generated
           aliased (JStr "settings") 1 "settings-data"
           (settings (parser aliased)) eq_refl aliased_run).
  vm_compute. repeat (first [left; reflexivity | right]).
Defined.

(** X5, witness: switching [useAlias] on. *)
Lemma settings_update_names_the_field_witness :
  js_index (JArr [JStr "useAlias"; JBool true]) 0 = JStr "useAlias" /\
  In "useAlias" setting_fields /\
  JBool true = js_index (JArr [JStr "useAlias"; JBool true]) 1.
Proof.
  apply (settings_update_names_the_field 1 useAlias_message quiet generated
           aliased (JArr [JStr "useAlias"; JBool true]) "useAlias"
           (JBool true) eq_refl eq_refl aliased_run).
  vm_compute. left. reflexivity.
Defined.

(** X19, witness: four events after webview 1 was attached. *)
Lemma webview_never_detached_witness :
  exists v, _view (run busy_events attached) = Some v.
Proof.
  exact (proj1 (webview_never_detached busy_events attached 1 eq_refl)).
Defined.

(** X20, witness: the key ['theme'] over four events. *)
Lemma run_keeps_foreign_keys_witness :
  workspaceState (run busy_events attached) !! "theme"
  = workspaceState attached !! "theme".
Proof.
  apply (run_keeps_foreign_keys busy_events attached "theme"); discriminate.
Defined.

(** X15, witness: the tree generated for [/A.tsx]. *)
Lemma saved_tree_restored_at_restart_witness :
  exists fp w2,
    js_prop "filePath" (getTree (parser generated)) = Some fp /\
    SidebarProvider_new (workspaceState (updateView generated))
      (Some ["/ws"]) disk_cycle = Some w2 /\
    parser w2 =
      setTree (getTree (parser generated))
        (new_parser fp
           (Some (initial_settings (workspaceState generated) "/ws"))).
Proof.
  destruct (saved_tree_restored_at_restart 1 generated (Some ["/ws"]) "/ws"
              disk_cycle) as (fp & w2 & Hfp & Hnew & Hparser & _).
  - reflexivity.
  - vm_compute. reflexivity.
  - reflexivity.
  - exists fp, w2. split; [exact Hfp|]. split; [exact Hnew|exact Hparser].
Defined.

(** X16, witness: the settings of the generated provider. *)
Lemma saved_settings_used_at_restart_witness :
  exists fp w2,
    SidebarProvider_new (workspaceState (settings_commit generated))
      None disk_cycle = Some w2 /\
    head (log w2)
    = Some (Call (CallNew fp (Some (settings (parser generated))))).
Proof.
  apply (saved_settings_used_at_restart generated None "" disk_cycle).
  - vm_compute. reflexivity.
  - reflexivity.
Defined.

(** X17, witness: clearing with webview 1 attached. *)
Lemma restart_after_clear_witness :
  exists fp w2,
    SidebarProvider_new (workspaceState (clearWorkSpaceState generated))
      (Some ["/ws"]) disk_cycle = Some w2 /\
    head (log w2) = Some (Call (CallNew fp (Some (defaultSettings "/ws")))).
Proof.
  destruct (restart_after_clear generated (Some ["/ws"]) "/ws" disk_cycle
              eq_refl) as (fp & w2 & Hnew & Hhead & _).
  exists fp, w2. split; [exact Hnew|exact Hhead].
Defined.

End ObservationFacts.
